(** * ResumeBuilder-Backend: credit ledger, AI pipeline, resume store, JWT and password hashing

    A shallow embedding of the Python sources:
    - [database/models.py]              : [SubscriptionType], [User] and its methods, [Resume]
    - [services/credit_manager.py]      : [CreditManager]
    - [routes/ai_routes.py]             : [enhance_section]
    - [controllers/enhancement_controller.py] : [AIController.enhance_resume_section]
    - [routes/resume_routes.py]         : [analyze_ats], resume save/list/get/update/delete
    - [services/json_parser.py]         : [ResumeJSONParser.parse_json]
    - [services/auth_helper.py], [middleware/auth.py], [routes/auth_routes.py] :
      tokens and password hashing.

    Python strings are lists of code points ([pystr]); Python ints are [Z]. *)

From Stdlib Require Import ZArith List String Bool Lia.
From Stdlib Require Strings.Byte.
Import ListNotations.
Open Scope Z_scope.

(** ** Python values *)

Definition pystr := list Z.

(** [str.isspace] on a single code point (CPython's [Py_UNICODE_ISSPACE]). *)
Definition py_isspace (c : Z) : bool :=
  ((9 <=? c) && (c <=? 13)) || ((28 <=? c) && (c <=? 32)) ||
  (c =? 133) || (c =? 160) || (c =? 5760) ||
  ((8192 <=? c) && (c <=? 8202)) || (c =? 8232) || (c =? 8233) ||
  (c =? 8239) || (c =? 8287) || (c =? 12288).

Fixpoint lstrip (s : pystr) : pystr :=
  match s with
  | [] => []
  | c :: r => if py_isspace c then lstrip r else s
  end.

(** [str.strip()] with no argument. *)
Definition strip (s : pystr) : pystr := rev (lstrip (rev (lstrip s))).

Definition pystr_eqb (a b : pystr) : bool := if list_eq_dec Z.eq_dec a b then true else false.

(** Truthiness of a [str]: [not s] holds exactly for the empty string. *)
Definition str_truthy (s : pystr) : bool :=
  match s with [] => false | _ => true end.

(** The test [not content or content.strip() == <empty string>]. *)
Definition is_blank (s : pystr) : bool := negb (str_truthy s) || pystr_eqb (strip s) [].

(** ** database/models.py *)

Inductive SubscriptionType := TRIAL | BASIC | PREMIUM | PRO.

Definition SubscriptionType_eqb (a b : SubscriptionType) : bool :=
  match a, b with
  | TRIAL, TRIAL | BASIC, BASIC | PREMIUM, PREMIUM | PRO, PRO => true
  | _, _ => false
  end.

(** The fields of [User] the claims are about. Timestamps ([updated_at],
    [last_login], ...) and profile strings are left out: no claim reads them.
    The methods that set [updated_at = datetime.now()] ([use_credit],
    [add_credits], [add_resume], [remove_resume]) do change a stored account
    even where every field below ends as it was: an equality of accounts or
    stores after such a call speaks of the fields below only. *)
Record User := mkUser {
  id : Z;
  subscription_type : SubscriptionType;
  credits_remaining : Z;
  credits_used : Z;
  resume_ids : list Z;
  resume_count : Z
}.

Definition set_credits_remaining (u : User) (n : Z) : User :=
  mkUser u.(id) u.(subscription_type) n u.(credits_used) u.(resume_ids) u.(resume_count).
Definition set_credits_used (u : User) (n : Z) : User :=
  mkUser u.(id) u.(subscription_type) u.(credits_remaining) n u.(resume_ids) u.(resume_count).
Definition set_resume_ids (u : User) (l : list Z) : User :=
  mkUser u.(id) u.(subscription_type) u.(credits_remaining) u.(credits_used) l
         (Z.of_nat (List.length l)).

(** ** Exceptions *)

Inductive Exc :=
  | HTTPException (status_code : Z) (detail : Detail)
  | AttributeError (obj attr : string)
  | ExternalError (msg : string)            (* raised by an external library *)
with Detail :=
  | DMsg (s : string)
  | DInsufficient (credits_remaining credits_needed : Z) (tier : SubscriptionType)
  | DWrapped (prefix : string) (inner : Exc). (* f"{prefix}{str(e)}" *)

(** ** A state and error monad: the Python object graph is the state. *)

Definition SE (S A : Type) : Type := S -> (A + Exc) * S.

Definition ret {S A} (a : A) : SE S A := fun s => (inl a, s).
Definition raise {S A} (e : Exc) : SE S A := fun s => (inr e, s).
Definition bind {S A B} (m : SE S A) (k : A -> SE S B) : SE S B :=
  fun s => match m s with
           | (inl a, s') => k a s'
           | (inr e, s') => (inr e, s')
           end.
Definition get {S} : SE S S := fun s => (inl s, s).
Definition put {S} (s : S) : SE S unit := fun _ => (inl tt, s).
(** [try: m except e: h e] *)
Definition catch {S A} (m : SE S A) (h : Exc -> SE S A) : SE S A :=
  fun s => match m s with
           | (inl a, s') => (inl a, s')
           | (inr e, s') => h e s'
           end.

Notation "x <- m ;; k" := (bind m (fun x => k)) (at level 61, m at next level, right associativity).
Notation "m ;;; k" := (bind m (fun _ => k)) (at level 61, right associativity).

(** Methods of [User]: the state is the [User] object (each method saves it). *)
Definition UserM := SE User.

(** [User.use_credit] *)
Definition use_credit (amount : Z) : UserM bool :=
  self <- get ;;
  if self.(credits_remaining) >=? amount then
    put (set_credits_used (set_credits_remaining self (self.(credits_remaining) - amount))
                          (self.(credits_used) + amount)) ;;;
    ret true
  else ret false.

(** [User.has_credits] *)
Definition has_credits (self : User) (amount : Z) : bool :=
  self.(credits_remaining) >=? amount.

(** [User.add_credits] *)
Definition add_credits (amount : Z) : UserM unit :=
  self <- get ;;
  put (set_credits_remaining self (self.(credits_remaining) + amount)).

(** ** services/credit_manager.py *)

Definition CREDIT_COSTS : list (string * Z) :=
  [("enhance", 1); ("analyze", 2); ("generate", 3); ("optimize", 1)]%string.

Fixpoint dict_get (k : string) (d : list (string * Z)) (default : Z) : Z :=
  match d with
  | [] => default
  | (k', v) :: r => if String.eqb k k' then v else dict_get k r default
  end.

Definition cost_of (operation : string) : Z := dict_get operation CREDIT_COSTS 1.

(** [CreditManager.check_and_use_credits] *)
Definition check_and_use_credits (operation : string) : UserM bool :=
  let cost := cost_of operation in
  user <- get ;;
  if SubscriptionType_eqb user.(subscription_type) PRO then
    put (set_credits_used user (user.(credits_used) + cost)) ;;;
    ret true
  else if negb (has_credits user cost) then
    raise (HTTPException 402
             (DInsufficient user.(credits_remaining) cost user.(subscription_type)))
  else
    success <- use_credit cost ;;
    if negb success then raise (HTTPException 402 (DMsg "Failed to deduct credits"))
    else ret true.

(** [CreditManager.refund_credits] *)
Definition refund_credits (operation : string) : UserM bool :=
  let cost := cost_of operation in
  user <- get ;;
  (if negb (SubscriptionType_eqb user.(subscription_type) PRO) then
     add_credits cost ;;;
     user' <- get ;;
     put (set_credits_used user' (Z.max 0 (user'.(credits_used) - cost)))
   else ret tt) ;;;
  ret true.

(** ** The document store and the calls made to external collaborators *)

Definition of_string (s : string) : pystr :=
  map (fun a => Z.of_nat (Ascii.nat_of_ascii a)) (list_ascii_of_string s).

(** [Resume] documents (the fields the routes read). Ids are [ObjectId]s, as [Z]. *)
Record Resume := mkResume {
  resume_id : Z;
  user_id : Z;
  title : option pystr;
  json_data : Z          (* the opaque JSON document *)
}.

(** Calls to external collaborators, in the order they are made. *)
Inductive Event :=
  | EvGenerate (section_name content instructions : pystr) (* GroqAgent.enhance_content *)
  | EvExtractText                                        (* PDFResumeParser.extract_raw_text *)
  | EvScrape (url : pystr).                              (* WebBaseLoader(job_url).load() *)

Record AppState := mkApp {
  users : list User;
  resumes : list Resume;
  events : list Event
}.

Definition AppM := SE AppState.

Definition log (ev : Event) : AppM unit :=
  fun s => (inl tt, mkApp s.(users) s.(resumes) (s.(events) ++ [ev])).

Fixpoint find_user (uid : Z) (l : list User) : option User :=
  match l with
  | [] => None
  | u :: r => if u.(id) =? uid then Some u else find_user uid r
  end.

Fixpoint replace_user (u' : User) (l : list User) : list User :=
  match l with
  | [] => []
  | u :: r => if u.(id) =? u'.(id) then u' :: r else u :: replace_user u' r
  end.

(** [await User.get(user_id)] *)
Definition user_get (uid : Z) : AppM (option User) :=
  fun s => (inl (find_user uid s.(users)), s).

(** Runs a [User] method on the stored account [uid]. Every method of [User]
    and [CreditManager] ends with [await user.save()], so the stored document
    and the route's in-memory object agree after each call. *)
Definition on_user {A} (uid : Z) (m : UserM A) : AppM A :=
  fun s => match find_user uid s.(users) with
           | None => (inr (ExternalError "DocumentNotFound"), s)
           | Some u => let (r, u') := m u in
                       (r, mkApp (replace_user u' s.(users)) s.(resumes) s.(events))
           end.

(** ** Tokens: services/auth_helper.py, middleware/auth.py, routes/auth_routes.py *)

(** A JWT payload as built by [generate_jwt_token]; [p_type] is
    [payload.get("type")]. *)
Record Payload := mkPayload {
  p_user_id : Z;
  p_email : string;
  p_exp : Z;
  p_iat : Z;
  p_type : option string
}.

(** A bearer token: its payload and whether its HS256 signature checks
    against [JWT_SECRET_KEY]. *)
Record Token := mkToken { tok_payload : Payload; tok_signed : bool }.

(** [jwt.encode(payload, JWT_SECRET_KEY, algorithm="HS256")] *)
Definition jwt_encode (p : Payload) : Token := mkToken p true.

Inductive JwtError := ExpiredSignatureError | InvalidTokenError.

(** [jwt.decode(token, JWT_SECRET_KEY, algorithms=["HS256"])] at POSIX time
    [now] (PyJWT, leeway 0: a bad signature is rejected, then an [iat] in the
    future, then [exp <= now]). *)
Definition jwt_decode (now : Z) (t : Token) : Payload + JwtError :=
  let p := t.(tok_payload) in
  if negb t.(tok_signed) then inr InvalidTokenError
  else if now <? p.(p_iat) then inr InvalidTokenError
  else if p.(p_exp) <=? now then inr ExpiredSignatureError
  else inl p.

Section Tokens.

(** The host's conversion of a naive local wall-clock time to POSIX seconds
    ([datetime.timestamp()] on a naive [datetime]). [timestamp()] adds
    [microsecond / 1e6] to a whole number of seconds and [int()] drops it
    again, so only whole wall-clock seconds matter. *)
Variable local_to_posix : Z -> Z.

(** [generate_jwt_token(user_id, email)] called at local wall-clock time
    [now_wall] ([datetime.now()]). *)
Definition generate_jwt_token (now_wall : Z) (user_id : Z) (email : string) : Token * Token :=
  let access_payload :=
    mkPayload user_id email (local_to_posix (now_wall + 3600)) (local_to_posix now_wall)
              (Some "access"%string) in
  let refresh_payload :=
    mkPayload user_id email (local_to_posix (now_wall + 30 * 86400)) (local_to_posix now_wall)
              (Some "refresh"%string) in
  (jwt_encode access_payload, jwt_encode refresh_payload).

(** [refresh_token(refresh_token)] in routes/auth_routes.py, at POSIX time
    [now] and local wall-clock time [now_wall]: the new access token and
    [expires_in]. *)
Definition refresh_token (now now_wall : Z) (t : Token) : (Token * Z) + Exc :=
  match jwt_decode now t with
  | inr ExpiredSignatureError => inr (HTTPException 401 (DMsg "Refresh token expired"))
  | inr InvalidTokenError => inr (HTTPException 401 (DMsg "Invalid refresh token"))
  | inl payload =>
      if negb (match payload.(p_type) with
               | Some ty => String.eqb ty "refresh"
               | None => false end)
      then inr (HTTPException 401 (DMsg "Invalid token type"))
      else let (access_token, _) := generate_jwt_token now_wall payload.(p_user_id) payload.(p_email) in
           inl (access_token, 3600)
  end.

End Tokens.

(** [verify_jwt_token]: the [HTTPException] raised for a wrong token type
    inside the [try] is caught by the final [except Exception] clause. *)
Definition verify_jwt_token (now : Z) (t : Token) : Payload + Exc :=
  match jwt_decode now t with
  | inr ExpiredSignatureError => inr (HTTPException 401 (DMsg "Token expired"))
  | inr InvalidTokenError => inr (HTTPException 401 (DMsg "Invalid token"))
  | inl payload =>
      if negb (match payload.(p_type) with
               | Some ty => String.eqb ty "access"
               | None => false end)
      then inr (HTTPException 401 (DMsg "Authentication failed"))
      else inl payload
  end.

(** [Depends(get_current_user)]: the handler runs only on a verified payload. *)
Definition with_auth {A} (now : Z) (t : Token) (handler : Payload -> AppM A) : AppM A :=
  match verify_jwt_token now t with
  | inl payload => handler payload
  | inr e => raise e
  end.

(** ** routes/ai_routes.py and controllers/enhancement_controller.py *)

(** [EnhanceRequest] (dto/enhancement_dto.py) declares two fields only. *)
Record EnhanceRequest := mkEnhanceRequest { content : pystr; section_name : pystr }.

(** Attribute access on the pydantic model: a name that is not a declared
    field raises [AttributeError]. *)
Definition EnhanceRequest_getattr (data : EnhanceRequest) (name : string) : AppM pystr :=
  if String.eqb name "content" then ret data.(content)
  else if String.eqb name "section_name" then ret data.(section_name)
  else raise (AttributeError "EnhanceRequest" name).

(** The prompt files: [None] when the path does not exist, [Some None] when
    it exists but [read_text] raises, [Some (Some t)] for its text. *)
Definition Files := string -> option (option pystr).

Definition PKG_ENHANCEMENT := "<package>/prompts/enhancement.txt"%string.
Definition CWD_ENHANCEMENT := "prompts/enhancement.txt"%string.
Definition PKG_WITH_INSTRUCTION := "<package>/prompts/withInstruction_enhancement.txt"%string.

(** Lines 41-61 of [enhance_section]: the instructions sent to the generator. *)
Definition resolve_instructions (fs : Files) (data : EnhanceRequest) : AppM pystr :=
  instr <- EnhanceRequest_getattr data "instructions" ;;
  if negb (str_truthy instr) then
    let prompts_file :=
      match fs PKG_ENHANCEMENT with Some _ => PKG_ENHANCEMENT | None => CWD_ENHANCEMENT end in
    match fs prompts_file with
    | Some (Some t) => ret (strip t)
    | _ => ret (of_string "Enhance the following to be more professional and impactful")
    end
  else
    match fs PKG_WITH_INSTRUCTION with
    | None => EnhanceRequest_getattr data "instructions"
    | Some (Some t) =>
        i <- EnhanceRequest_getattr data "instructions" ;;
        ret (strip t ++ [10] ++ i)
    | Some None => EnhanceRequest_getattr data "instructions"
    end.

(** The Content Generator, [GroqAgent.enhance_content(section_name, content,
    instructions)]: its text or the exception it raises. *)
Definition Generator := pystr -> pystr -> pystr -> pystr + Exc.

Definition call_generator (gen : Generator) (section content instructions : pystr) : AppM pystr :=
  log (EvGenerate section content instructions) ;;;
  match gen section content instructions with
  | inl r => ret r
  | inr e => raise e
  end.

Record EnhanceResult := mkEnhanceResult { section : pystr; original : pystr; enhanced : pystr }.

(** [AIController.enhance_resume_section] *)
Definition enhance_resume_section (gen : Generator) (section_name content instructions : pystr)
  : AppM EnhanceResult :=
  catch (enhanced_content <- call_generator gen section_name content instructions ;;
         ret (mkEnhanceResult section_name content enhanced_content))
        (fun e => raise (HTTPException 500 (DWrapped "Error enhancing content: " e))).

(** The two [except] clauses of [enhance_section]. *)
Definition enhance_section_handler (uid : Z) (e : Exc) : AppM EnhanceResult :=
  match e with
  | HTTPException _ _ => raise e
  | _ =>
      catch (user <- user_get uid ;;
             match user with
             | Some _ => on_user uid (refund_credits "enhance") ;;; ret tt
             | None => ret tt
             end)
            (fun _ => ret tt) ;;;
      raise (HTTPException 500 (DWrapped "Enhancement failed: " e))
  end.

(** The body of the [try] of [enhance_section]. *)
Definition enhance_section_body (gen : Generator) (fs : Files) (data : EnhanceRequest)
  (uid : Z) : AppM EnhanceResult :=
  user <- user_get uid ;;
  match user with
  | None => raise (HTTPException 404 (DMsg "User not found"))
  | Some _ =>
      on_user uid (check_and_use_credits "enhance") ;;;
      content <- EnhanceRequest_getattr data "content" ;;
      section_name <- EnhanceRequest_getattr data "section_name" ;;
      if negb (str_truthy content) || pystr_eqb (strip content) [] then
        on_user uid (refund_credits "enhance") ;;;
        raise (HTTPException 400 (DMsg "Content is required"))
      else
        instructions <- resolve_instructions fs data ;;
        enhance_resume_section gen section_name content instructions
  end.

(** [enhance_section(data, current_user)] *)
Definition enhance_section (gen : Generator) (fs : Files) (data : EnhanceRequest)
  (current_user : Payload) : AppM EnhanceResult :=
  let uid := current_user.(p_user_id) in
  catch (enhance_section_body gen fs data uid) (enhance_section_handler uid).

(** [POST /api/ai/enhance] with a bearer token, at POSIX time [now]. *)
Definition enhance_endpoint (now : Z) (t : Token) (gen : Generator) (fs : Files)
  (data : EnhanceRequest) : AppM EnhanceResult :=
  with_auth now t (enhance_section gen fs data).

(** ** The ATS analysis route: [analyze_ats] (routes/resume_routes.py) and
    [ResumeController.analyze_ats_compatibility] *)

(** The external text sources: PDF text extraction of an uploaded file, and
    the scraped job description for a URL ([WebBaseLoader] followed by
    [_extract_job_description] and its fallbacks, which never raise out of
    their [try]). *)
Record AtsSources := mkAtsSources {
  extract_raw_text : list Z -> pystr;
  scrape_job : pystr -> pystr
}.

Definition ats_analysis_prompt (resume_content job_content : pystr) : pystr :=
  of_string "Analyze the following resume against the job requirements for ATS (Applicant Tracking System) compatibility. RESUME: "
  ++ resume_content ++ of_string " JOB REQUIREMENTS: " ++ job_content
  ++ of_string " Provide a detailed ATS analysis including: ...".

(** What the analysis returns; the keyword scores and section feedback are
    pure functions of these three texts. *)
Record AtsResult := mkAtsResult {
  analysis_result : pystr; ats_resume : pystr; ats_job : pystr
}.

Definition opt_truthy (o : option pystr) : option pystr :=
  match o with Some s => if str_truthy s then Some s else None | None => None end.

Definition analyze_ats_compatibility (gen : Generator) (src : AtsSources)
  (resume_file : option (list Z)) (resume_text job_description job_url : option pystr)
  : AppM AtsResult :=
  catch (
    resume_content <-
      match resume_file with
      | Some bytes =>
          log EvExtractText ;;;
          let c := src.(extract_raw_text) bytes in
          if negb (str_truthy c)
          then raise (HTTPException 400 (DMsg "Could not extract text from resume file"))
          else ret c
      | None =>
          match opt_truthy resume_text with
          | Some r => ret r
          | None => raise (HTTPException 400
                      (DMsg "Either resume_file or resume_text must be provided"))
          end
      end ;;
    job_content <-
      match opt_truthy job_url with
      | Some url => log (EvScrape url) ;;; ret (src.(scrape_job) url)
      | None =>
          match opt_truthy job_description with
          | Some j => ret j
          | None => raise (HTTPException 400
                      (DMsg "Either job_description or job_url must be provided"))
          end
      end ;;
    analysis <- call_generator gen (of_string "ats_analysis") resume_content
                  (ats_analysis_prompt resume_content job_content) ;;
    ret (mkAtsResult analysis resume_content job_content))
  (fun e => match e with
            | HTTPException _ _ => raise e
            | _ => raise (HTTPException 500 (DWrapped "Error analyzing ATS compatibility: " e))
            end).

(** [POST /api/resumes/analyze]: no [Depends(get_current_user)], no ledger call. *)
Definition analyze_ats (gen : Generator) (src : AtsSources)
  (resume_file : option (list Z)) (resume_text job_description job_url : option pystr)
  : AppM AtsResult :=
  analyze_ats_compatibility gen src resume_file resume_text job_description job_url.

(** ** Resume routes with an ownership check (routes/resume_routes.py) *)

Definition resume_matches (rid uid : Z) (r : Resume) : bool :=
  (r.(resume_id) =? rid) && (r.(user_id) =? uid).

(** [await Resume.find_one(Resume.id == rid, Resume.user_id == uid)] *)
Definition find_one (rid uid : Z) : AppM (option Resume) :=
  fun s => (inl (find (resume_matches rid uid) s.(resumes)), s).

Definition resume_not_found : Exc :=
  HTTPException 404 (DMsg "Resume not found or access denied").

Record ResumeResponse := mkResumeResponse {
  rr_id : Z; rr_title : option pystr; rr_json_data : Z
}.

Definition to_response (r : Resume) : ResumeResponse :=
  mkResumeResponse r.(resume_id) r.(title) r.(json_data).

(** [except HTTPException: raise / except Exception as e: raise HTTPException(500, ...)] *)
Definition route_handler {A} (prefix : string) (e : Exc) : AppM A :=
  match e with
  | HTTPException _ _ => raise e
  | _ => raise (HTTPException 500 (DWrapped prefix e))
  end.

(** [get_my_resume_by_id(resume_id, current_user)] *)
Definition get_my_resume_by_id (rid : Z) (current_user : Payload) : AppM ResumeResponse :=
  catch (resume <- find_one rid current_user.(p_user_id) ;;
         match resume with
         | None => raise resume_not_found
         | Some r => ret (to_response r)
         end)
        (route_handler "Error fetching resume: ").

(** [SaveResumeRequest]: [title] and [json_data] only. *)
Record SaveResumeRequest := mkSaveResumeRequest { req_title : option pystr; req_json_data : Z }.

Definition SaveResumeRequest_getattr (request : SaveResumeRequest) (name : string)
  : AppM (option pystr) :=
  if String.eqb name "title" then ret request.(req_title)
  else raise (AttributeError "SaveResumeRequest" name).

(** [await resume.save()] *)
Definition save_resume (r : Resume) : AppM unit :=
  fun s => (inl tt,
            mkApp s.(users)
                  (map (fun r0 => if r0.(resume_id) =? r.(resume_id) then r else r0) s.(resumes))
                  s.(events)).

(** [update_my_resume(resume_id, request, current_user)] *)
Definition update_my_resume (rid : Z) (request : SaveResumeRequest) (current_user : Payload)
  : AppM ResumeResponse :=
  catch (resume <- find_one rid current_user.(p_user_id) ;;
         match resume with
         | None => raise resume_not_found
         | Some r =>
             let r1 := match request.(req_title) with
                       | Some t => mkResume r.(resume_id) r.(user_id) (Some t) r.(json_data)
                       | None => r end in
             let r2 := mkResume r1.(resume_id) r1.(user_id) r1.(title) request.(req_json_data) in
             _ <- SaveResumeRequest_getattr request "yaml_content" ;;
             save_resume r2 ;;;
             ret (to_response r2)
         end)
        (route_handler "Error updating resume: ").

Fixpoint list_remove (x : Z) (l : list Z) : list Z :=
  match l with
  | [] => []
  | y :: r => if y =? x then r else y :: list_remove x r
  end.

(** [User.remove_resume] *)
Definition remove_resume (rid : Z) : UserM unit :=
  self <- get ;;
  if existsb (Z.eqb rid) self.(resume_ids) then
    put (set_resume_ids self (list_remove rid self.(resume_ids)))
  else ret tt.

(** [await resume.delete()] *)
Definition delete_resume (r : Resume) : AppM unit :=
  fun s => (inl tt,
            mkApp s.(users)
                  (filter (fun r0 => negb (r0.(resume_id) =? r.(resume_id))) s.(resumes))
                  s.(events)).

(** [delete_my_resume(resume_id, current_user)] *)
Definition delete_my_resume (rid : Z) (current_user : Payload) : AppM string :=
  let uid := current_user.(p_user_id) in
  catch (resume <- find_one rid uid ;;
         match resume with
         | None => raise resume_not_found
         | Some r =>
             user <- user_get uid ;;
             (match user with
              | Some _ => on_user uid (remove_resume r.(resume_id))
              | None => ret tt
              end) ;;;
             delete_resume r ;;;
             ret "Resume deleted successfully"%string
         end)
        (route_handler "Error deleting resume: ").

(** ** Password hashing (services/auth_helper.py) *)

(** One byte of an encoding, [0 <= n < 256]. *)
Definition byte_of (n : Z) : Byte.byte :=
  match Byte.of_nat (Z.to_nat n) with Some b => b | None => Byte.x00 end.

(** The UTF-8 encoding of one code point under Python's strict error
    handler: a surrogate code point (U+D800..U+DFFF), which a [str] may hold
    on its own, has no encoding and raises [UnicodeEncodeError]. *)
Definition utf8_char (c : Z) : option (list Byte.byte) :=
  if c <? 0 then None
  else if c <? 128 then Some [byte_of c]
  else if c <? 2048 then Some [byte_of (192 + c / 64); byte_of (128 + c mod 64)]
  else if (55296 <=? c) && (c <=? 57343) then None
  else if c <? 65536 then
    Some [byte_of (224 + c / 4096); byte_of (128 + (c / 64) mod 64); byte_of (128 + c mod 64)]
  else if c <? 1114112 then
    Some [byte_of (240 + c / 262144); byte_of (128 + (c / 4096) mod 64);
          byte_of (128 + (c / 64) mod 64); byte_of (128 + c mod 64)]
  else None.

(** [str.encode('utf-8')]: [None] where it raises [UnicodeEncodeError]. *)
Fixpoint utf8_encode (s : pystr) : option (list Byte.byte) :=
  match s with
  | [] => Some []
  | c :: r => match utf8_char c, utf8_encode r with
              | Some b, Some bs => Some (b ++ bs)
              | _, _ => None
              end
  end.

Definition UnicodeEncodeError : Exc := ExternalError "UnicodeEncodeError".

Section Passwords.

(** [hashlib.pbkdf2_hmac('sha256', password, salt, iterations)] *)
Variable pbkdf2_hmac_sha256 : list Byte.byte -> list Byte.byte -> Z -> list Byte.byte.

Definition hex_digit (n : Z) : Z := if n <? 10 then 48 + n else 87 + n.

(** [bytes.hex()]: two lowercase hex digits per byte. *)
Definition bytes_hex (bs : list Byte.byte) : pystr :=
  flat_map (fun b => let n := Z.of_nat (Byte.to_nat b) in
                     [hex_digit (n / 16); hex_digit (n mod 16)]) bs.

(** [secrets.token_hex(32)], given the 32 bytes [secrets.token_bytes(32)] drew. *)
Definition token_hex (random_bytes : list Byte.byte) : pystr := bytes_hex random_bytes.

(** [hash_password(password)]: [password.encode('utf-8')] is evaluated
    before [salt.encode('utf-8')]; neither is inside a [try]. *)
Definition hash_password (random_bytes : list Byte.byte) (password : pystr) : pystr + Exc :=
  let salt := token_hex random_bytes in
  match utf8_encode password with
  | None => inr UnicodeEncodeError
  | Some pw =>
      match utf8_encode salt with
      | None => inr UnicodeEncodeError
      | Some sb => inl (salt ++ bytes_hex (pbkdf2_hmac_sha256 pw sb 100000))
      end
  end.

(** [verify_password(password, stored_password)] *)
Definition verify_password (password stored_password : pystr) : bool + Exc :=
  let salt := firstn 64 stored_password in
  let stored_hash := skipn 64 stored_password in
  match utf8_encode password with
  | None => inr UnicodeEncodeError
  | Some pw =>
      match utf8_encode salt with
      | None => inr UnicodeEncodeError
      | Some sb => inl (pystr_eqb (bytes_hex (pbkdf2_hmac_sha256 pw sb 100000)) stored_hash)
      end
  end.

End Passwords.

(** ** Sequences of ledger calls *)

(** A reserve or a refund, as the routes issue them. A reserve that raises
    [InsufficientCredits] leaves the account as it was; the sequence goes on. *)
Inductive LedgerCall := Reserve (operation : string) | Refund (operation : string).

Definition run_call (c : LedgerCall) : UserM bool :=
  match c with
  | Reserve op => check_and_use_credits op
  | Refund op => refund_credits op
  end.

Fixpoint run_calls (cs : list LedgerCall) (u : User) : User :=
  match cs with
  | [] => u
  | c :: r => run_calls r (snd (run_call c u))
  end.

(** ** Host time zones *)

(** A host whose local time is a fixed offset from UTC (UTC itself: 0). *)
Definition fixed_offset_zone (offset : Z) (wall : Z) : Z := wall - offset.

(** America/New_York local time from 2023-11-05 to 2024-11-03: UTC-5 before
    the wall-clock instant 2024-03-10 03:00, UTC-4 from then on; a wall time
    in the skipped hour keeps the earlier offset ([fold=0], PEP 495). *)
Definition new_york_2024 (wall : Z) : Z :=
  if wall <? 1710039600 then wall + 18000 else wall + 14400.

(** A computation that makes no call to an external collaborator. *)
Definition quiet {A} (m : AppM A) : Prop := forall s, events (snd (m s)) = events s.

(** ** More of database/models.py and routes/resume_routes.py *)

(** [User.add_resume] *)
Definition add_resume (rid : Z) : UserM unit :=
  self <- get ;;
  if negb (existsb (Z.eqb rid) self.(resume_ids)) then
    put (set_resume_ids self (self.(resume_ids) ++ [rid]))
  else ret tt.

(** [await new_resume.insert()]: [_id] is unique in the collection. *)
Definition insert_resume (r : Resume) : AppM unit :=
  fun s => if existsb (fun r0 => r0.(resume_id) =? r.(resume_id)) s.(resumes)
           then (inr (ExternalError "DuplicateKeyError"), s)
           else (inl tt, mkApp s.(users) (s.(resumes) ++ [r]) s.(events)).

(** Decimal digits of a non-negative [n], least significant first. *)
Fixpoint digits_rev (fuel : nat) (n : Z) : pystr :=
  match fuel with
  | O => []
  | S f => (48 + n mod 10) :: (if n <? 10 then [] else digits_rev f (n / 10))
  end.

(** [str(n)] for an [int] *)
Definition str_of_int (n : Z) : pystr :=
  if n <? 0 then 45 :: rev (digits_rev (S (Z.to_nat (- n))) (- n))
  else rev (digits_rev (S (Z.to_nat n)) n).

(** [request.title or f"Resume {user.resume_count + 1}"] *)
Definition resume_title (request : SaveResumeRequest) (u : User) : pystr :=
  match opt_truthy request.(req_title) with
  | Some t => t
  | None => of_string "Resume " ++ str_of_int (u.(resume_count) + 1)
  end.

(** [save_resume(request, current_user)] (POST /api/resumes/save), where
    [new_id] is the [_id] given to the new document. Its only [except]
    clause is [except Exception], which also catches the 404 raised inside
    the [try]. *)
Definition save_resume_route (new_id : Z) (request : SaveResumeRequest) (current_user : Payload)
  : AppM ResumeResponse :=
  let uid := current_user.(p_user_id) in
  catch (user <- user_get uid ;;
         match user with
         | None => raise (HTTPException 404 (DMsg "User not found"))
         | Some u =>
             let new_resume := mkResume new_id uid (Some (resume_title request u))
                                        request.(req_json_data) in
             insert_resume new_resume ;;;
             on_user uid (add_resume new_resume.(resume_id)) ;;;
             ret (to_response new_resume)
         end)
        (fun e => raise (HTTPException 500 (DWrapped "Error saving resume: " e))).

(** [Resume.find(Resume.user_id == uid).to_list()] *)
Definition find_by_user (uid : Z) : AppM (list Resume) :=
  fun s => (inl (filter (fun r => r.(user_id) =? uid) s.(resumes)), s).

(** [get_my_resumes(current_user)] *)
Definition get_my_resumes (current_user : Payload) : AppM (list ResumeResponse) :=
  catch (rs <- find_by_user current_user.(p_user_id) ;;
         ret (map to_response rs))
        (fun e => raise (HTTPException 500 (DWrapped "Error fetching resumes: " e))).

(** The invariant [User.add_resume] and [User.remove_resume] maintain: no
    id twice, and [resume_count] is the length of [resume_ids]. *)
Definition resume_list_ok (u : User) : Prop :=
  NoDup u.(resume_ids) /\ u.(resume_count) = Z.of_nat (List.length u.(resume_ids)).

(** ** services/json_parser.py *)

Section JsonParser.

Variable J : Type.
(** [json.loads] on a [str]: the decoded value, or [None] where it raises
    [JSONDecodeError]. *)
Variable json_loads : pystr -> option J.

(** [s.startswith(p)] and [s.endswith(p)] *)
Definition startswith (s p : pystr) : bool := pystr_eqb (firstn (List.length p) s) p.
Definition endswith (s p : pystr) : bool :=
  (List.length p <=? List.length s)%nat && pystr_eqb (skipn (List.length s - List.length p) s) p.

(** [ResumeJSONParser.parse_json]; [None] is the [return None] of the inner
    bare [except]. *)
Definition parse_json (json_content : pystr) : option J :=
  match json_loads json_content with
  | Some resume_data => Some resume_data
  | None =>
      let clean_json := strip json_content in
      let clean_json := if startswith clean_json (of_string "```json")
                        then skipn 7 clean_json else clean_json in
      let clean_json := if endswith clean_json (of_string "```")
                        then firstn (List.length clean_json - 3) clean_json else clean_json in
      json_loads (strip clean_json)
  end.

End JsonParser.

(** The credits a sequence of ledger calls reserves, the cost of each
    [Reserve] added up. *)
Fixpoint reserved_cost (cs : list LedgerCall) : Z :=
  match cs with
  | [] => 0
  | Reserve op :: r => cost_of op + reserved_cost r
  | Refund _ :: r => reserved_cost r
  end.

(** ** Concrete inputs *)

Definition trial_user : User := mkUser 1 TRIAL 10 0 [] 0.
Definition pro_user : User := mkUser 2 PRO 0 50 [] 0.

(** A store holding the two accounts and no resume. *)
Definition store0 : AppState := mkApp [trial_user; pro_user] [] [].

(** Access tokens issued on a UTC host at wall-clock time 1000. *)
Definition token_for (uid : Z) : Token :=
  fst (generate_jwt_token (fixed_offset_zone 0) 1000 uid "user@example.com").

(** A generator that answers, one that fails, and no prompt files. *)
Definition gen_ok : Generator := fun _ c _ => inl c.
Definition gen_fail : Generator := fun _ _ _ => inr (ExternalError "groq: 503").
Definition no_files : Files := fun _ => None.

Definition blank_request : EnhanceRequest := mkEnhanceRequest (of_string "   ") (of_string "summary").
Definition ats_sources : AtsSources := mkAtsSources (fun _ => []) (fun url => url).

Definition text_request : EnhanceRequest :=
  mkEnhanceRequest (of_string "Led a team of 5") (of_string "experience").

(** Account 1 owns resume 7; account 2 owns nothing. *)
Definition store_r : AppState :=
  mkApp [mkUser 1 TRIAL 10 0 [7] 1; pro_user] [mkResume 7 1 (Some (of_string "CV")) 42] [].

Definition edit_request : SaveResumeRequest := mkSaveResumeRequest (Some (of_string "Mine now")) 0.

(** A decoder that knows one JSON text, [{}]. *)
Definition loads_braces (s : pystr) : option nat :=
  if pystr_eqb s (of_string "{}") then Some 0%nat else None.

(** ** Theorems *)

Example cost_of_enhance : cost_of "enhance" = 1.
Proof. reflexivity. Qed.

Example cost_of_unknown : cost_of "translate" = 1.
Proof. reflexivity. Qed.

Example reserve_trial :
  check_and_use_credits "enhance" trial_user = (inl true, mkUser 1 TRIAL 9 1 [] 0).
Proof. reflexivity. Qed.

Example reserve_empty_basic :
  check_and_use_credits "analyze" (mkUser 3 BASIC 0 7 [] 0)
  = (inr (HTTPException 402 (DInsufficient 0 2 BASIC)), mkUser 3 BASIC 0 7 [] 0).
Proof. reflexivity. Qed.

Ltac unfold_monad := cbv [bind get put ret raise catch] in *; cbn beta iota in *.

Lemma cost_of_pos (op : string) : 1 <= cost_of op.
Proof.
  unfold cost_of, dict_get, CREDIT_COSTS.
  repeat match goal with |- context [String.eqb ?a ?b] => destruct (String.eqb a b) end; lia.
Qed.

Lemma tier_not_pro_eqb (u : User) :
  subscription_type u <> PRO -> SubscriptionType_eqb (subscription_type u) PRO = false.
Proof. destruct (subscription_type u); simpl; congruence. Qed.

Lemma tier_pro_eqb (u : User) :
  subscription_type u = PRO -> SubscriptionType_eqb (subscription_type u) PRO = true.
Proof. intros ->. reflexivity. Qed.

(** Reserve on an account that is not Pro, written out. *)
Lemma check_and_use_credits_eq (op : string) (u : User) :
  subscription_type u <> PRO ->
  check_and_use_credits op u =
    if cost_of op <=? credits_remaining u then
      (inl true, mkUser (id u) (subscription_type u) (credits_remaining u - cost_of op)
                        (credits_used u + cost_of op) (resume_ids u) (resume_count u))
    else
      (inr (HTTPException 402
              (DInsufficient (credits_remaining u) (cost_of op) (subscription_type u))), u).
Proof.
  intros Hnp.
  unfold check_and_use_credits, use_credit, has_credits. unfold_monad.
  rewrite (tier_not_pro_eqb u Hnp).
  destruct (credits_remaining u >=? cost_of op) eqn:E;
    destruct (cost_of op <=? credits_remaining u) eqn:E'; try lia;
    simpl; rewrite ?E; reflexivity.
Qed.

(** Refund on an account that is not Pro, written out. *)
Lemma refund_credits_eq (op : string) (u : User) :
  subscription_type u <> PRO ->
  refund_credits op u =
    (inl true, mkUser (id u) (subscription_type u) (credits_remaining u + cost_of op)
                      (Z.max 0 (credits_used u - cost_of op)) (resume_ids u) (resume_count u)).
Proof.
  intros Hnp.
  unfold refund_credits, add_credits. unfold_monad.
  rewrite (tier_not_pro_eqb u Hnp). reflexivity.
Qed.

Lemma refund_credits_pro (op : string) (u : User) :
  subscription_type u = PRO -> refund_credits op u = (inl true, u).
Proof.
  intros Hp. unfold refund_credits. unfold_monad. rewrite (tier_pro_eqb u Hp). reflexivity.
Qed.

Lemma check_and_use_credits_pro (op : string) (u : User) :
  subscription_type u = PRO ->
  check_and_use_credits op u = (inl true, set_credits_used u (credits_used u + cost_of op)).
Proof.
  intros Hp. unfold check_and_use_credits. unfold_monad.
  rewrite (tier_pro_eqb u Hp). reflexivity.
Qed.

(** C1: for an account that is not Pro, [check_and_use_credits] succeeds
    exactly when [credits_remaining >= cost]; on success it subtracts the
    cost from [credits_remaining] and adds it to [credits_used]; otherwise it
    raises the 402 [InsufficientCredits] error carrying the balance, the cost
    and the tier, and leaves the account unchanged. *)
Theorem reserve_non_pro (op : string) (u : User) :
  subscription_type u <> PRO ->
  (fst (check_and_use_credits op u) = inl true <-> cost_of op <= credits_remaining u) /\
  (cost_of op <= credits_remaining u ->
     credits_remaining (snd (check_and_use_credits op u)) = credits_remaining u - cost_of op /\
     credits_used (snd (check_and_use_credits op u)) = credits_used u + cost_of op) /\
  (credits_remaining u < cost_of op ->
     check_and_use_credits op u =
       (inr (HTTPException 402
               (DInsufficient (credits_remaining u) (cost_of op) (subscription_type u))), u)).
Proof.
  intros Hnp. rewrite (check_and_use_credits_eq op u Hnp).
  destruct (cost_of op <=? credits_remaining u) eqn:E; simpl.
  - apply Z.leb_le in E. repeat split; auto; lia.
  - apply Z.leb_gt in E. repeat split; try discriminate; lia.
Qed.

Lemma reserve_non_pro_witness :
  TRIAL <> PRO /\
  ((fst (check_and_use_credits "enhance" trial_user) = inl true <->
      cost_of "enhance" <= credits_remaining trial_user) /\
   (cost_of "enhance" <= credits_remaining trial_user ->
      credits_remaining (snd (check_and_use_credits "enhance" trial_user))
        = credits_remaining trial_user - cost_of "enhance" /\
      credits_used (snd (check_and_use_credits "enhance" trial_user))
        = credits_used trial_user + cost_of "enhance") /\
   (credits_remaining trial_user < cost_of "enhance" ->
      check_and_use_credits "enhance" trial_user =
        (inr (HTTPException 402 (DInsufficient (credits_remaining trial_user)
                (cost_of "enhance") (subscription_type trial_user))), trial_user))).
Proof. split; [discriminate | apply (reserve_non_pro "enhance" trial_user); discriminate]. Defined.

(** C2: for an account that is not Pro, with [credits_remaining >= cost]
    (and [credits_used >= 0], which every account satisfies: it starts at 0
    and [refund_credits] floors it at 0), a refund right after a successful
    reserve of the same operation gives back the account unchanged. *)
Theorem refund_reserve_roundtrip (op : string) (u : User) :
  subscription_type u <> PRO ->
  cost_of op <= credits_remaining u ->
  0 <= credits_used u ->
  (check_and_use_credits op ;;; refund_credits op) u = (inl true, u).
Proof.
  intros Hnp Hc Hu. unfold bind.
  rewrite (check_and_use_credits_eq op u Hnp).
  apply Z.leb_le in Hc. rewrite Hc.
  rewrite refund_credits_eq by exact Hnp. simpl.
  destruct u as [i t r c l n]; simpl in *.
  f_equal. f_equal; [lia | pose proof (cost_of_pos op); lia].
Qed.

Lemma refund_reserve_roundtrip_witness :
  TRIAL <> PRO /\ cost_of "enhance" <= 10 /\ 0 <= 0 /\
  (check_and_use_credits "enhance" ;;; refund_credits "enhance") trial_user = (inl true, trial_user).
Proof.
  split; [discriminate | split; [vm_compute; discriminate | split; [lia |]]].
  apply (refund_reserve_roundtrip "enhance" trial_user);
    [discriminate | vm_compute; discriminate | simpl; lia].
Defined.

Lemma run_call_tier (c : LedgerCall) (u : User) :
  subscription_type (snd (run_call c u)) = subscription_type u.
Proof.
  destruct (SubscriptionType_eqb (subscription_type u) PRO) eqn:E.
  - assert (Hp : subscription_type u = PRO) by (destruct (subscription_type u); easy).
    destruct c; simpl;
      [rewrite check_and_use_credits_pro | rewrite refund_credits_pro]; auto.
  - assert (Hnp : subscription_type u <> PRO) by (intros H; rewrite H in E; discriminate).
    destruct c; simpl;
      [rewrite check_and_use_credits_eq by exact Hnp;
       destruct (cost_of operation <=? credits_remaining u) |
       rewrite refund_credits_eq by exact Hnp]; reflexivity.
Qed.

Lemma run_call_nonneg (c : LedgerCall) (u : User) :
  subscription_type u <> PRO -> 0 <= credits_remaining u -> 0 <= credits_used u ->
  0 <= credits_remaining (snd (run_call c u)) /\ 0 <= credits_used (snd (run_call c u)).
Proof.
  intros Hnp Hr Hu.
  destruct c as [op | op]; simpl.
  - rewrite check_and_use_credits_eq by exact Hnp.
    destruct (cost_of op <=? credits_remaining u) eqn:E; simpl; [apply Z.leb_le in E |];
      pose proof (cost_of_pos op); lia.
  - rewrite refund_credits_eq by exact Hnp. simpl. pose proof (cost_of_pos op); lia.
Qed.

(** C5: for an account that is not Pro, starting with both counters
    non-negative, any sequence of reserves and refunds keeps
    [credits_remaining >= 0] and [credits_used >= 0]. *)
Theorem ledger_counters_nonneg (cs : list LedgerCall) (u : User) :
  subscription_type u <> PRO -> 0 <= credits_remaining u -> 0 <= credits_used u ->
  0 <= credits_remaining (run_calls cs u) /\ 0 <= credits_used (run_calls cs u).
Proof.
  revert u. induction cs as [| c cs IH]; intros u Hnp Hr Hu; simpl; [auto |].
  destruct (run_call_nonneg c u Hnp Hr Hu) as [Hr' Hu'].
  apply IH; auto. rewrite run_call_tier. exact Hnp.
Qed.

Lemma ledger_counters_nonneg_witness :
  let cs := [Reserve "generate"; Reserve "generate"; Refund "enhance"; Reserve "analyze";
             Reserve "generate"; Refund "generate"; Refund "generate"]%string in
  let u := mkUser 4 BASIC 5 0 [] 0 in
  BASIC <> PRO /\ 0 <= 5 /\ 0 <= 0 /\
  0 <= credits_remaining (run_calls cs u) /\ 0 <= credits_used (run_calls cs u).
Proof.
  intros cs u. split; [discriminate | split; [lia | split; [lia |]]].
  apply (ledger_counters_nonneg cs u); simpl; [discriminate | lia | lia].
Defined.

Example ledger_sequence_example :
  run_calls [Reserve "generate"; Reserve "generate"; Refund "enhance"]%string
            (mkUser 4 BASIC 5 0 [] 0) = mkUser 4 BASIC 3 2 [] 0.
Proof. reflexivity. Qed.

(** C7 (as the code has it): for a Pro account, [check_and_use_credits]
    always succeeds, adds the cost to [credits_used] and leaves
    [credits_remaining] as it was; [refund_credits] changes neither counter. *)
Theorem pro_reserve_refund (op : string) (u : User) :
  subscription_type u = PRO ->
  check_and_use_credits op u =
    (inl true, mkUser (id u) PRO (credits_remaining u) (credits_used u + cost_of op)
                      (resume_ids u) (resume_count u)) /\
  refund_credits op u = (inl true, u).
Proof.
  intros Hp. split.
  - rewrite check_and_use_credits_pro by exact Hp.
    unfold set_credits_used. rewrite Hp. reflexivity.
  - apply refund_credits_pro, Hp.
Qed.

Lemma pro_reserve_refund_witness :
  PRO = PRO /\
  check_and_use_credits "enhance" pro_user =
    (inl true, mkUser 2 PRO 0 51 [] 0) /\
  refund_credits "enhance" (mkUser 2 PRO 0 51 [] 0) = (inl true, mkUser 2 PRO 0 51 [] 0).
Proof.
  split; [reflexivity | split].
  - exact (proj1 (pro_reserve_refund "enhance" pro_user eq_refl)).
  - exact (proj2 (pro_reserve_refund "enhance" (mkUser 2 PRO 0 51 [] 0) eq_refl)).
Defined.

(** C7, counterexample: a refund on a Pro account with [credits_used = 51]
    leaves [credits_used] at 51; it does not subtract the cost. *)
Lemma pro_refund_keeps_usage :
  credits_used (snd (refund_credits "enhance" (mkUser 2 PRO 0 51 [] 0))) = 51 /\
  credits_used (snd (refund_credits "enhance" (mkUser 2 PRO 0 51 [] 0)))
    <> 51 - cost_of "enhance".
Proof. vm_compute. split; [reflexivity | discriminate]. Qed.

(** ** The enhance route *)

Lemma find_user_id (uid : Z) (l : list User) (u : User) :
  find_user uid l = Some u -> id u = uid.
Proof.
  induction l as [| a l IH]; simpl; [discriminate |].
  destruct (id a =? uid) eqn:E; [intros H; injection H as <-; apply Z.eqb_eq, E | exact IH].
Qed.

Lemma replace_found_user (uid : Z) (l : list User) (u : User) :
  find_user uid l = Some u -> replace_user u l = l.
Proof.
  intros Hf. pose proof (find_user_id uid l u Hf) as Hid. subst uid.
  induction l as [| a l IH]; simpl in *; [discriminate |].
  destruct (id a =? id u) eqn:E.
  - injection Hf as ->. reflexivity.
  - rewrite (IH Hf). reflexivity.
Qed.

Lemma find_replace_user (l : list User) (u u' : User) :
  find_user (id u') l = Some u -> find_user (id u') (replace_user u' l) = Some u'.
Proof.
  induction l as [| a l IH]; simpl; [discriminate |].
  destruct (id a =? id u') eqn:E; simpl.
  - rewrite Z.eqb_refl. reflexivity.
  - rewrite E. exact IH.
Qed.

Lemma replace_replace_user (l : list User) (u1 u2 : User) :
  id u1 = id u2 -> replace_user u2 (replace_user u1 l) = replace_user u2 l.
Proof.
  intros Hid. induction l as [| a l IH]; simpl; [reflexivity |].
  destruct (id a =? id u1) eqn:E; simpl.
  - rewrite <- Hid, Z.eqb_refl, E. reflexivity.
  - rewrite <- Hid, E, IH. reflexivity.
Qed.

(** Running a [User] method on a stored account, and then another one. *)
Lemma on_user_found {A} (uid : Z) (m : UserM A) (s : AppState) (u : User) :
  find_user uid (users s) = Some u ->
  on_user uid m s =
    (fst (m u), mkApp (replace_user (snd (m u)) (users s)) (resumes s) (events s)).
Proof.
  intros Hf. unfold on_user. rewrite Hf. destruct (m u); reflexivity.
Qed.

Example blank_whitespace : is_blank (of_string "  ") = true.
Proof. reflexivity. Qed.

Example blank_tab_newline : is_blank [9; 10; 12288] = true.
Proof. reflexivity. Qed.

Example not_blank_text : is_blank (of_string " Led a team ") = false.
Proof. reflexivity. Qed.

Example enhance_blank_trial :
  enhance_endpoint 1500 (token_for 1) gen_ok no_files blank_request store0
  = (inr (HTTPException 400 (DMsg "Content is required")), store0).
Proof. reflexivity. Qed.

Example enhance_blank_pro_store :
  enhance_endpoint 1500 (token_for 2) gen_ok no_files blank_request store0
  = (inr (HTTPException 400 (DMsg "Content is required")),
     mkApp [trial_user; mkUser 2 PRO 0 51 [] 0] [] []).
Proof. reflexivity. Qed.

Example enhance_text_trial :
  enhance_endpoint 1500 (token_for 1) gen_ok no_files text_request store0
  = (inr (HTTPException 500 (DWrapped "Enhancement failed: "
                               (AttributeError "EnhanceRequest" "instructions"))), store0).
Proof. reflexivity. Qed.
Lemma enhance_blank_non_pro (now : Z) (t : Token) (p : Payload) (gen : Generator)
  (fs : Files) (data : EnhanceRequest) (s : AppState) (u : User) :
  verify_jwt_token now t = inl p ->
  find_user (p_user_id p) (users s) = Some u ->
  subscription_type u <> PRO ->
  1 <= credits_remaining u -> 0 <= credits_used u ->
  is_blank (content data) = true ->
  enhance_endpoint now t gen fs data s
  = (inr (HTTPException 400 (DMsg "Content is required")), s).
Proof.
  intros Hv Hf Hnp Hr Hu Hb.
  pose proof (find_user_id _ _ _ Hf) as Hid.
  unfold enhance_endpoint, with_auth. rewrite Hv.
  unfold enhance_section, enhance_section_body, catch, bind at 1.
  unfold user_get at 1. rewrite Hf.
  unfold bind at 1. rewrite (on_user_found _ _ _ _ Hf).
  rewrite (check_and_use_credits_eq _ _ Hnp).
  change (cost_of "enhance") with 1.
  apply Z.leb_le in Hr. rewrite Hr. cbn [fst snd].
  unfold is_blank in Hb. cbv [bind EnhanceRequest_getattr ret]. cbn -[on_user str_truthy pystr_eqb strip].
  rewrite Hb.
  set (u1 := mkUser (id u) (subscription_type u) (credits_remaining u - 1) (credits_used u + 1)
                    (resume_ids u) (resume_count u)).
  assert (Hf1 : find_user (p_user_id p) (replace_user u1 (users s)) = Some u1).
  { rewrite <- Hid. change (id u) with (id u1). apply (find_replace_user _ u). simpl. rewrite Hid. exact Hf. }
  rewrite (on_user_found (p_user_id p) _ (mkApp (replace_user u1 (users s)) (resumes s) (events s)) u1 Hf1).
  cbn [users resumes events].
  rewrite refund_credits_eq by exact Hnp. cbn [fst snd].
  rewrite replace_replace_user by reflexivity.
  replace (mkUser (id u1) (subscription_type u1) (credits_remaining u1 + cost_of "enhance")
            (Z.max 0 (credits_used u1 - cost_of "enhance")) (resume_ids u1) (resume_count u1))
    with u.
  2:{ change (cost_of "enhance") with 1. destruct u; simpl in *. f_equal; lia. }
  rewrite (replace_found_user _ _ _ Hf). destruct s. reflexivity.
Qed.

Lemma enhance_blank_pro (now : Z) (t : Token) (p : Payload) (gen : Generator)
  (fs : Files) (data : EnhanceRequest) (s : AppState) (u : User) :
  verify_jwt_token now t = inl p ->
  find_user (p_user_id p) (users s) = Some u ->
  subscription_type u = PRO ->
  is_blank (content data) = true ->
  enhance_endpoint now t gen fs data s
  = (inr (HTTPException 400 (DMsg "Content is required")),
     mkApp (replace_user (set_credits_used u (credits_used u + 1)) (users s))
           (resumes s) (events s)).
Proof.
  intros Hv Hf Hp Hb.
  pose proof (find_user_id _ _ _ Hf) as Hid.
  unfold enhance_endpoint, with_auth. rewrite Hv.
  unfold enhance_section, enhance_section_body, catch, bind at 1.
  unfold user_get at 1. rewrite Hf.
  unfold bind at 1. rewrite (on_user_found _ _ _ _ Hf).
  rewrite (check_and_use_credits_pro _ _ Hp).
  change (cost_of "enhance") with 1. cbn [fst snd].
  unfold is_blank in Hb. cbv [bind EnhanceRequest_getattr ret]. cbn -[on_user str_truthy pystr_eqb strip].
  rewrite Hb.
  set (u1 := set_credits_used u (credits_used u + 1)).
  assert (Hf1 : find_user (p_user_id p) (replace_user u1 (users s)) = Some u1).
  { rewrite <- Hid. change (id u) with (id u1). apply (find_replace_user _ u). simpl. rewrite Hid. exact Hf. }
  rewrite (on_user_found (p_user_id p) _ (mkApp (replace_user u1 (users s)) (resumes s) (events s)) u1 Hf1).
  cbn [users resumes events].
  rewrite refund_credits_pro by (unfold u1, set_credits_used; simpl; exact Hp).
  cbn [fst snd]. rewrite (replace_found_user _ _ _ Hf1). reflexivity.
Qed.

(** C6 (as the code has it): after a successful reservation, an enhance
    request with empty or whitespace-only content calls [refund_credits] and
    ends in the 400 "Content is required" error. For an account that is not
    Pro (with [credits_used >= 0]) the store ends exactly as it started; for
    a Pro account the refund changes nothing, so [credits_used] ends one
    higher than before the request. *)
Theorem enhance_blank_content (now : Z) (t : Token) (p : Payload) (gen : Generator)
  (fs : Files) (data : EnhanceRequest) (s : AppState) (u : User) :
  verify_jwt_token now t = inl p ->
  find_user (p_user_id p) (users s) = Some u ->
  is_blank (content data) = true ->
  (subscription_type u <> PRO -> 1 <= credits_remaining u -> 0 <= credits_used u ->
     enhance_endpoint now t gen fs data s
     = (inr (HTTPException 400 (DMsg "Content is required")), s)) /\
  (subscription_type u = PRO ->
     enhance_endpoint now t gen fs data s
     = (inr (HTTPException 400 (DMsg "Content is required")),
        mkApp (replace_user (set_credits_used u (credits_used u + 1)) (users s))
              (resumes s) (events s))).
Proof.
  intros Hv Hf Hb. split.
  - intros Hnp Hr Hu. exact (enhance_blank_non_pro now t p gen fs data s u Hv Hf Hnp Hr Hu Hb).
  - intros Hp. exact (enhance_blank_pro now t p gen fs data s u Hv Hf Hp Hb).
Qed.

Lemma enhance_blank_content_witness :
  verify_jwt_token 1500 (token_for 1) = inl (tok_payload (token_for 1)) /\
  find_user 1 (users store0) = Some trial_user /\
  is_blank (content blank_request) = true /\
  enhance_endpoint 1500 (token_for 1) gen_ok no_files blank_request store0
  = (inr (HTTPException 400 (DMsg "Content is required")), store0).
Proof.
  split; [reflexivity | split; [reflexivity | split; [reflexivity |]]].
  apply (proj1 (enhance_blank_content 1500 (token_for 1) (tok_payload (token_for 1)) gen_ok
                  no_files blank_request store0 trial_user eq_refl eq_refl eq_refl));
    [discriminate | simpl; lia | simpl; lia].
Defined.

(** C6, counterexample: a Pro account with [credits_used = 50] sending blank
    content gets the 400 error, but ends with [credits_used = 51], not its
    pre-reserve value. *)
Lemma enhance_blank_pro_not_restored :
  fst (enhance_endpoint 1500 (token_for 2) gen_ok no_files blank_request store0)
    = inr (HTTPException 400 (DMsg "Content is required")) /\
  find_user 2 (users (snd (enhance_endpoint 1500 (token_for 2) gen_ok no_files blank_request store0)))
    = Some (mkUser 2 PRO 0 51 [] 0) /\
  find_user 2 (users store0) = Some (mkUser 2 PRO 0 50 [] 0).
Proof. vm_compute. repeat split. Qed.

(** ** Which routes reach the Content Generator *)

Lemma quiet_ret {A} (a : A) : quiet (ret a).
Proof. intros s. reflexivity. Qed.

Lemma quiet_raise {A} (e : Exc) : quiet (A := A) (raise e).
Proof. intros s. reflexivity. Qed.

Lemma quiet_bind {A B} (m : AppM A) (k : A -> AppM B) :
  quiet m -> (forall a, quiet (k a)) -> quiet (bind m k).
Proof.
  intros Hm Hk s. specialize (Hm s). unfold bind.
  destruct (m s) as [[a | e] s'] eqn:E; simpl in *; [rewrite Hk |]; exact Hm.
Qed.

Lemma quiet_catch {A} (m : AppM A) (h : Exc -> AppM A) :
  quiet m -> (forall e, quiet (h e)) -> quiet (catch m h).
Proof.
  intros Hm Hh s. specialize (Hm s). unfold catch.
  destruct (m s) as [[a | e] s'] eqn:E; simpl in *; [| rewrite Hh]; exact Hm.
Qed.

(** A computation that always raises without touching the state stops the
    rest of the block from running. *)
Lemma quiet_bind_raises {A B} (m : AppM A) (k : A -> AppM B) :
  (forall s, exists e, m s = (inr e, s)) -> quiet (bind m k).
Proof.
  intros Hm s. destruct (Hm s) as [e E]. unfold bind. rewrite E. reflexivity.
Qed.

Lemma quiet_on_user {A} (uid : Z) (m : UserM A) : quiet (on_user uid m).
Proof.
  intros s. unfold on_user. destruct (find_user uid (users s)); [destruct (m u) |]; reflexivity.
Qed.

Lemma quiet_user_get (uid : Z) : quiet (user_get uid).
Proof. intros s. reflexivity. Qed.

Lemma quiet_getattr (data : EnhanceRequest) (name : string) :
  quiet (EnhanceRequest_getattr data name).
Proof.
  unfold EnhanceRequest_getattr.
  destruct (String.eqb name "content"); [apply quiet_ret |].
  destruct (String.eqb name "section_name"); [apply quiet_ret | apply quiet_raise].
Qed.

Create HintDb quiet.
#[local] Hint Resolve quiet_ret quiet_raise quiet_on_user quiet_user_get quiet_getattr : quiet.

(** [data.instructions] raises [AttributeError]: [EnhanceRequest] has no such field. *)
Lemma resolve_instructions_raises (fs : Files) (data : EnhanceRequest) (s : AppState) :
  resolve_instructions fs data s = (inr (AttributeError "EnhanceRequest" "instructions"), s).
Proof. reflexivity. Qed.

Lemma quiet_enhance_handler (uid : Z) (e : Exc) : quiet (enhance_section_handler uid e).
Proof.
  unfold enhance_section_handler. destruct e; [auto with quiet | |];
    (apply quiet_bind; [apply quiet_catch; [apply quiet_bind; [auto with quiet |] |] |]);
    intros; try destruct a; try (apply quiet_bind; intros); auto with quiet.
Qed.

(** The enhance endpoint never calls the Content Generator. *)
Lemma enhance_endpoint_quiet (now : Z) (t : Token) (gen : Generator) (fs : Files)
  (data : EnhanceRequest) : quiet (enhance_endpoint now t gen fs data).
Proof.
  unfold enhance_endpoint, with_auth. destruct (verify_jwt_token now t) as [p | e];
    [| auto with quiet].
  unfold enhance_section. apply quiet_catch; [| apply quiet_enhance_handler].
  unfold enhance_section_body. apply quiet_bind; [auto with quiet | intros [u |]];
    [| auto with quiet].
  apply quiet_bind; [auto with quiet | intros _].
  apply quiet_bind; [auto with quiet | intros c].
  apply quiet_bind; [auto with quiet | intros sn].
  destruct (negb (str_truthy c) || pystr_eqb (strip c) []).
  - apply quiet_bind; auto with quiet.
  - apply quiet_bind_raises. intros s. eexists. apply resolve_instructions_raises.
Qed.

Lemma enhance_insufficient (now : Z) (t : Token) (p : Payload) (gen : Generator)
  (fs : Files) (data : EnhanceRequest) (s : AppState) (u : User) :
  verify_jwt_token now t = inl p ->
  find_user (p_user_id p) (users s) = Some u ->
  subscription_type u <> PRO -> credits_remaining u < 1 ->
  enhance_endpoint now t gen fs data s
  = (inr (HTTPException 402
            (DInsufficient (credits_remaining u) 1 (subscription_type u))), s).
Proof.
  intros Hv Hf Hnp Hr.
  unfold enhance_endpoint, with_auth. rewrite Hv.
  unfold enhance_section, enhance_section_body, catch, bind at 1.
  unfold user_get at 1. rewrite Hf.
  unfold bind at 1. rewrite (on_user_found _ _ _ _ Hf).
  rewrite (check_and_use_credits_eq _ _ Hnp).
  change (cost_of "enhance") with 1.
  apply Z.leb_gt in Hr. destruct (1 <=? credits_remaining u) eqn:E; [lia |].
  cbn [fst snd]. rewrite (replace_found_user _ _ _ Hf). destruct s. reflexivity.
Qed.

(** What [analyze_ats] does with a resume text and a job description: it
    calls the Content Generator, and touches no account. *)
Lemma analyze_ats_text (gen : Generator) (src : AtsSources) (r j : pystr) (s : AppState) :
  str_truthy r = true -> str_truthy j = true ->
  snd (analyze_ats gen src None (Some r) (Some j) None s)
  = mkApp (users s) (resumes s)
          (events s ++ [EvGenerate (of_string "ats_analysis") r (ats_analysis_prompt r j)]).
Proof.
  intros Hr Hj. unfold analyze_ats, analyze_ats_compatibility, opt_truthy, call_generator, log.
  rewrite Hr, Hj. unfold_monad.
  destruct (gen (of_string "ats_analysis") r (ats_analysis_prompt r j)) as [a | e];
    [| destruct e]; reflexivity.
Qed.

(** C4 (as the code has it): the enhance endpoint reaches the ledger only
    with a valid access token; with an invalid token it fails with that
    401 error and changes nothing; when the reserve fails for lack of credits
    it ends in the 402 [InsufficientCredits] error with the store and the log
    of external calls unchanged, so no external call is made. The ATS
    analysis endpoint takes no token and reserves nothing: with a resume text
    and a job description it calls the Content Generator and leaves every
    account as it was. *)
Theorem generator_gating (now : Z) (t : Token) (gen : Generator) (fs : Files)
  (data : EnhanceRequest) (s : AppState) :
  (forall e, verify_jwt_token now t = inr e -> enhance_endpoint now t gen fs data s = (inr e, s)) /\
  (forall p u, verify_jwt_token now t = inl p -> find_user (p_user_id p) (users s) = Some u ->
     subscription_type u <> PRO -> credits_remaining u < 1 ->
     enhance_endpoint now t gen fs data s
     = (inr (HTTPException 402
               (DInsufficient (credits_remaining u) 1 (subscription_type u))), s)) /\
  (forall src r j, str_truthy r = true -> str_truthy j = true ->
     snd (analyze_ats gen src None (Some r) (Some j) None s)
     = mkApp (users s) (resumes s)
             (events s ++ [EvGenerate (of_string "ats_analysis") r (ats_analysis_prompt r j)])).
Proof.
  split; [intros e He; unfold enhance_endpoint, with_auth; rewrite He; reflexivity |].
  split; [intros p u Hv Hf Hnp Hr; exact (enhance_insufficient now t p gen fs data s u Hv Hf Hnp Hr) |].
  intros src r j Hr Hj. apply analyze_ats_text; assumption.
Qed.

Lemma generator_gating_witness :
  let s := mkApp [mkUser 3 BASIC 0 7 [] 0] [] [] in
  verify_jwt_token 1500 (token_for 3) = inl (tok_payload (token_for 3)) /\
  enhance_endpoint 1500 (token_for 3) gen_ok no_files text_request s
  = (inr (HTTPException 402 (DInsufficient 0 1 BASIC)), s).
Proof.
  intros s. split; [reflexivity |].
  apply (proj1 (proj2 (generator_gating 1500 (token_for 3) gen_ok no_files text_request s))
           (tok_payload (token_for 3)) (mkUser 3 BASIC 0 7 [] 0));
    [reflexivity | reflexivity | discriminate | simpl; lia].
Defined.

(** C4, counterexample: the ATS analysis endpoint, called with no bearer
    token at all, calls the Content Generator, and no account's credits
    change. *)
Lemma analyze_ats_unauthenticated_uncharged :
  snd (analyze_ats gen_ok ats_sources None (Some (of_string "Python developer"))
         (Some (of_string "Hiring a Python developer")) None store0)
  = mkApp (users store0) (resumes store0)
      [EvGenerate (of_string "ats_analysis") (of_string "Python developer")
         (ats_analysis_prompt (of_string "Python developer")
            (of_string "Hiring a Python developer"))].
Proof. vm_compute. reflexivity. Qed.

(** ** Resume ownership *)

Example owner_gets_resume :
  fst (get_my_resume_by_id 7 (tok_payload (token_for 1)) store_r)
  = inl (mkResumeResponse 7 (Some (of_string "CV")) 42).
Proof. reflexivity. Qed.

Example owner_deletes_resume :
  delete_my_resume 7 (tok_payload (token_for 1)) store_r
  = (inl "Resume deleted successfully"%string,
     mkApp [mkUser 1 TRIAL 10 0 [] 0; pro_user] [] []).
Proof. reflexivity. Qed.

Example non_owner_delete_example :
  delete_my_resume 7 (tok_payload (token_for 2)) store_r = (inr resume_not_found, store_r).
Proof. reflexivity. Qed.

Lemma find_none {A} (f : A -> bool) (l : list A) :
  (forall x, In x l -> f x = false) -> find f l = None.
Proof.
  induction l as [| a l IH]; intros H; simpl; [reflexivity |].
  rewrite (H a (or_introl eq_refl)). apply IH. intros x Hx. apply H. right. exact Hx.
Qed.

Lemma NoDup_map_inj {A B} (f : A -> B) (l : list A) (x y : A) :
  NoDup (map f l) -> In x l -> In y l -> f x = f y -> x = y.
Proof.
  induction l as [| a l IH]; simpl; intros Hnd Hx Hy Hxy; [contradiction |].
  inversion Hnd as [| b m Hnotin Hnd' Heq]; subst.
  destruct Hx as [<- | Hx], Hy as [<- | Hy]; auto.
  - exfalso. apply Hnotin. rewrite Hxy. apply in_map, Hy.
  - exfalso. apply Hnotin. rewrite <- Hxy. apply in_map, Hx.
Qed.

(** When [find_one] finds nothing, the three routes answer the same 404 and
    change nothing. *)
Lemma resume_routes_not_found (s : AppState) (rid : Z) (caller : Payload)
  (request : SaveResumeRequest) :
  find (resume_matches rid (p_user_id caller)) (resumes s) = None ->
  get_my_resume_by_id rid caller s = (inr resume_not_found, s) /\
  update_my_resume rid request caller s = (inr resume_not_found, s) /\
  delete_my_resume rid caller s = (inr resume_not_found, s).
Proof.
  intros Hn. unfold get_my_resume_by_id, update_my_resume, delete_my_resume, find_one.
  unfold_monad. rewrite Hn. repeat split.
Qed.

(** C8: for a resume [rid] owned by account A and a caller B other than A,
    [get], [update] and [delete] all raise the same 404 "Resume not found
    or access denied" error and leave the store (the resume, A's
    [resume_ids] and [resume_count]) unchanged; an id that no resume has
    gets exactly the same answer. Resume ids are unique in the collection. *)
Theorem non_owner_not_found (s : AppState) (rid : Z) (caller : Payload)
  (request : SaveResumeRequest) (r : Resume) :
  NoDup (map resume_id (resumes s)) ->
  In r (resumes s) -> resume_id r = rid -> user_id r <> p_user_id caller ->
  (get_my_resume_by_id rid caller s = (inr resume_not_found, s) /\
   update_my_resume rid request caller s = (inr resume_not_found, s) /\
   delete_my_resume rid caller s = (inr resume_not_found, s)) /\
  (forall s', (forall r', In r' (resumes s') -> resume_id r' <> rid) ->
   get_my_resume_by_id rid caller s' = (inr resume_not_found, s') /\
   update_my_resume rid request caller s' = (inr resume_not_found, s') /\
   delete_my_resume rid caller s' = (inr resume_not_found, s')).
Proof.
  intros Hnd Hin Hid Hown. split.
  - apply resume_routes_not_found. apply find_none.
    intros x Hx. unfold resume_matches.
    destruct (resume_id x =? rid) eqn:E1; [| reflexivity].
    apply Z.eqb_eq in E1.
    assert (x = r) as -> by (apply (NoDup_map_inj resume_id (resumes s)); auto; congruence).
    simpl. apply Z.eqb_neq. exact Hown.
  - intros s' Habs. apply resume_routes_not_found. apply find_none.
    intros x Hx. unfold resume_matches.
    destruct (resume_id x =? rid) eqn:E1; [| reflexivity].
    apply Z.eqb_eq in E1. exfalso. exact (Habs x Hx E1).
Qed.

Lemma non_owner_not_found_witness :
  NoDup (map resume_id (resumes store_r)) /\
  get_my_resume_by_id 7 (tok_payload (token_for 2)) store_r = (inr resume_not_found, store_r) /\
  update_my_resume 7 edit_request (tok_payload (token_for 2)) store_r
    = (inr resume_not_found, store_r) /\
  delete_my_resume 7 (tok_payload (token_for 2)) store_r = (inr resume_not_found, store_r).
Proof.
  assert (Hnd : NoDup (map resume_id (resumes store_r))) by (simpl; repeat constructor; auto).
  split; [exact Hnd |].
  apply (proj1 (non_owner_not_found store_r 7 (tok_payload (token_for 2)) edit_request
                  (mkResume 7 1 (Some (of_string "CV")) 42) Hnd (or_introl eq_refl) eq_refl
                  ltac:(discriminate))).
Defined.

(** ** Tokens *)

Example access_token_fields :
  tok_payload (token_for 1) = mkPayload 1 "user@example.com" 4600 1000 (Some "access"%string).
Proof. reflexivity. Qed.

Example refresh_token_rejected_by_protected_routes :
  verify_jwt_token 1500 (snd (generate_jwt_token (fixed_offset_zone 0) 1000 1 "user@example.com"))
  = inr (HTTPException 401 (DMsg "Authentication failed")).
Proof. reflexivity. Qed.

Example expired_access_token :
  verify_jwt_token 4600 (token_for 1) = inr (HTTPException 401 (DMsg "Token expired")).
Proof. reflexivity. Qed.

(** What holds of the tokens on a host whose local time has a fixed UTC
    offset: the access token lives 3600 s and the refresh token 30 days;
    protected routes accept only [type = "access"]; [refresh_token] accepts
    only a verified, unexpired token of type "refresh" and then issues a new
    access token. *)
Theorem tokens_fixed_offset (offset wall uid : Z) (email : string) :
  let (access, refresh) := generate_jwt_token (fixed_offset_zone offset) wall uid email in
  p_exp (tok_payload access) = p_iat (tok_payload access) + 3600 /\
  p_type (tok_payload access) = Some "access"%string /\
  p_exp (tok_payload refresh) = p_iat (tok_payload refresh) + 30 * 86400 /\
  p_type (tok_payload refresh) = Some "refresh"%string /\
  (forall now t p, verify_jwt_token now t = inl p -> p_type p = Some "access"%string) /\
  (forall now now_wall t p, jwt_decode now t = inl p -> p_type p = Some "refresh"%string ->
     refresh_token (fixed_offset_zone offset) now now_wall t
     = inl (fst (generate_jwt_token (fixed_offset_zone offset) now_wall (p_user_id p) (p_email p)),
            3600)) /\
  (forall now now_wall t res, refresh_token (fixed_offset_zone offset) now now_wall t = inl res ->
     exists p, jwt_decode now t = inl p /\ p_type p = Some "refresh"%string).
Proof.
  simpl. unfold fixed_offset_zone.
  split; [lia | split; [reflexivity | split; [lia | split; [reflexivity |]]]].
  split; [| split].
  - intros now t p. unfold verify_jwt_token.
    destruct (jwt_decode now t) as [q | []]; try discriminate.
    destruct (p_type q) as [ty |] eqn:Ety; simpl; [| discriminate].
    destruct (String.eqb ty "access") eqn:E; simpl; [| discriminate].
    intros H; injection H as <-. rewrite Ety. apply String.eqb_eq in E. congruence.
  - intros now now_wall t p Hd Ht. unfold refresh_token. rewrite Hd, Ht. reflexivity.
  - intros now now_wall t res. unfold refresh_token.
    destruct (jwt_decode now t) as [q | []]; try discriminate.
    destruct (p_type q) as [ty |] eqn:Ety; simpl; [| discriminate].
    destruct (String.eqb ty "refresh") eqn:E; simpl; [| discriminate].
    intros _. exists q. split; [reflexivity |]. apply String.eqb_eq in E. congruence.
Qed.

(** C9: the lifetimes are computed on naive local wall-clock times
    ([datetime.now() + timedelta(days=30)], then [.timestamp()]). On a host
    in America/New_York, a token pair issued at 2024-03-01 12:00 local time
    gets a refresh token whose [exp - iat] is 30 days minus one hour, since
    the window crosses the switch to daylight saving time. *)
Theorem refresh_lifetime_across_dst :
  let (access, refresh) := generate_jwt_token new_york_2024 1709294400 1 "user@example.com" in
  p_iat (tok_payload refresh) = 1709312400 /\
  p_exp (tok_payload refresh) = 1711900800 /\
  p_exp (tok_payload refresh) - p_iat (tok_payload refresh) = 30 * 86400 - 3600.
Proof. vm_compute. repeat split. Qed.

(** ** Password hashing *)


Lemma pystr_eqb_refl (a : pystr) : pystr_eqb a a = true.
Proof. unfold pystr_eqb. destruct (list_eq_dec Z.eq_dec a a); congruence. Qed.







Example wrong_password_rejected :
  let prf := fun (pw salt : list Byte.byte) (_ : Z) => firstn 32 (pw ++ salt) in
  match hash_password prf (repeat Byte.x2a 32) (of_string "hunter2") with
  | inl stored => verify_password prf (of_string "hunter3") stored = inl false
  | inr _ => False
  end.
Proof. vm_compute. reflexivity. Qed.

Example non_ascii_password_roundtrip :
  let prf := fun (pw salt : list Byte.byte) (_ : Z) => firstn 32 (pw ++ salt) in
  let pw := [112; 228; 223; 8364; 128512] in
  match hash_password prf (repeat Byte.x2a 32) pw with
  | inl stored => verify_password prf pw stored = inl true
  | inr _ => False
  end.
Proof. vm_compute. reflexivity. Qed.


(** ** More of the resume store *)

Example str_of_int_examples :
  str_of_int 0 = of_string "0" /\ str_of_int 7 = of_string "7" /\
  str_of_int 42 = of_string "42" /\ str_of_int 100 = of_string "100" /\
  str_of_int (-7) = of_string "-7".
Proof. vm_compute. repeat split. Qed.

Lemma existsb_eqb_In (x : Z) (l : list Z) : existsb (Z.eqb x) l = true <-> In x l.
Proof.
  rewrite existsb_exists. split.
  - intros [y [Hy E]]. apply Z.eqb_eq in E. subst. exact Hy.
  - intros H. exists x. split; [exact H | apply Z.eqb_refl].
Qed.

Lemma existsb_eqb_notin (x : Z) (l : list Z) : ~ In x l -> existsb (Z.eqb x) l = false.
Proof.
  intros H. destruct (existsb (Z.eqb x) l) eqn:E; [| reflexivity].
  apply existsb_eqb_In in E. contradiction.
Qed.

Lemma add_resume_eq (rid : Z) (u : User) :
  add_resume rid u =
    (inl tt, if existsb (Z.eqb rid) (resume_ids u) then u
             else set_resume_ids u (resume_ids u ++ [rid])).
Proof. unfold add_resume. unfold_monad. destruct (existsb (Z.eqb rid) (resume_ids u)); reflexivity. Qed.

Lemma remove_resume_eq (rid : Z) (u : User) :
  remove_resume rid u =
    (inl tt, if existsb (Z.eqb rid) (resume_ids u)
             then set_resume_ids u (list_remove rid (resume_ids u)) else u).
Proof. unfold remove_resume. unfold_monad. destruct (existsb (Z.eqb rid) (resume_ids u)); reflexivity. Qed.

Lemma list_remove_In (x y : Z) (l : list Z) : In y (list_remove x l) -> In y l.
Proof.
  induction l as [| a l IH]; simpl; [auto |].
  destruct (a =? x); simpl; [auto | intros [H | H]; auto].
Qed.

Lemma list_remove_NoDup (x : Z) (l : list Z) : NoDup l -> NoDup (list_remove x l).
Proof.
  induction l as [| a l IH]; simpl; intros Hnd; [constructor |].
  inversion Hnd as [| b m Hnotin Hnd' Heq]; subst.
  destruct (a =? x); [exact Hnd' |].
  constructor; [| auto]. intros H. apply Hnotin. exact (list_remove_In x a l H).
Qed.

Lemma list_remove_app_notin (x : Z) (l : list Z) : ~ In x l -> list_remove x (l ++ [x]) = l.
Proof.
  induction l as [| a l IH]; simpl; intros Hn; [rewrite Z.eqb_refl; reflexivity |].
  destruct (a =? x) eqn:E; [apply Z.eqb_eq in E; exfalso; auto |].
  rewrite IH; auto.
Qed.

Lemma NoDup_snoc (x : Z) (l : list Z) : NoDup l -> ~ In x l -> NoDup (l ++ [x]).
Proof.
  induction l as [| a l IH]; simpl; intros Hnd Hn; [repeat constructor; auto |].
  inversion Hnd as [| b m Hnotin Hnd' Heq]; subst.
  constructor; [| apply IH; auto].
  intros H. apply in_app_or in H. destruct H as [H | [H | []]]; [auto | apply Hn; left; auto].
Qed.

(** [User.add_resume] and [User.remove_resume] keep the list of resume ids
    free of duplicates and [resume_count] equal to its length. *)
Theorem resume_list_invariant (rid : Z) (u : User) :
  resume_list_ok u ->
  resume_list_ok (snd (add_resume rid u)) /\ resume_list_ok (snd (remove_resume rid u)).
Proof.
  intros [Hnd Hc]. rewrite add_resume_eq, remove_resume_eq. simpl. split.
  - destruct (existsb (Z.eqb rid) (resume_ids u)) eqn:E; [split; assumption |].
    split; [| reflexivity]. simpl. apply NoDup_snoc; [exact Hnd |].
    intros H. apply existsb_eqb_In in H. congruence.
  - destruct (existsb (Z.eqb rid) (resume_ids u)); [| split; assumption].
    split; [| reflexivity]. apply list_remove_NoDup, Hnd.
Qed.

Lemma resume_list_invariant_witness :
  resume_list_ok (mkUser 1 TRIAL 10 0 [7] 1) /\
  resume_list_ok (snd (add_resume 8 (mkUser 1 TRIAL 10 0 [7] 1))) /\
  resume_list_ok (snd (remove_resume 8 (mkUser 1 TRIAL 10 0 [7] 1))).
Proof.
  assert (H : resume_list_ok (mkUser 1 TRIAL 10 0 [7] 1)).
  { split; [repeat constructor; simpl; tauto | reflexivity]. }
  split; [exact H | apply resume_list_invariant; exact H].
Defined.

Lemma add_remove_resume_eq (rid : Z) (u : User) :
  ~ In rid (resume_ids u) ->
  resume_count u = Z.of_nat (List.length (resume_ids u)) ->
  (add_resume rid ;;; remove_resume rid) u = (inl tt, u).
Proof.
  intros Hn Hc. unfold bind. rewrite add_resume_eq, (existsb_eqb_notin _ _ Hn).
  rewrite remove_resume_eq. simpl.
  replace (existsb (Z.eqb rid) (resume_ids u ++ [rid])) with true
    by (symmetry; apply existsb_eqb_In, in_or_app; right; left; reflexivity).
  rewrite list_remove_app_notin by exact Hn.
  destruct u; simpl in *. rewrite Hc. reflexivity.
Qed.

(** Adding a resume id the account does not hold and then removing it gives
    back the same [resume_ids] list and [resume_count] (when [resume_count]
    agreed with the list). ([updated_at], which both methods set to
    [datetime.now()], is not modelled.) *)
Theorem add_remove_resume_roundtrip (rid : Z) (u : User) :
  ~ In rid (resume_ids u) ->
  resume_count u = Z.of_nat (List.length (resume_ids u)) ->
  let r := (add_resume rid ;;; remove_resume rid) u in
  fst r = inl tt /\ resume_ids (snd r) = resume_ids u /\ resume_count (snd r) = resume_count u.
Proof.
  intros Hn Hc r. unfold r. rewrite (add_remove_resume_eq rid u Hn Hc). auto.
Qed.

Lemma add_remove_resume_roundtrip_witness :
  ~ In 8 [7] /\ 1 = Z.of_nat (List.length [7]) /\
  resume_ids (snd ((add_resume 8 ;;; remove_resume 8) (mkUser 1 TRIAL 10 0 [7] 1))) = [7].
Proof.
  assert (Hn : ~ In 8 [7]) by (simpl; lia).
  split; [exact Hn | split; [reflexivity |]].
  apply (add_remove_resume_roundtrip 8 (mkUser 1 TRIAL 10 0 [7] 1)); [exact Hn | reflexivity].
Defined.

Lemma find_app {A} (f : A -> bool) (l1 l2 : list A) :
  find f (l1 ++ l2) = match find f l1 with Some x => Some x | None => find f l2 end.
Proof. induction l1 as [| a l1 IH]; simpl; [reflexivity | destruct (f a); auto]. Qed.

Lemma existsb_false {A} (f : A -> bool) (l : list A) :
  (forall x, In x l -> f x = false) -> existsb f l = false.
Proof.
  induction l as [| a l IH]; intros H; simpl; [reflexivity |].
  rewrite (H a (or_introl eq_refl)). apply IH. intros x Hx. apply H. right. exact Hx.
Qed.

Lemma filter_all {A} (f : A -> bool) (l : list A) :
  (forall x, In x l -> f x = true) -> filter f l = l.
Proof.
  induction l as [| a l IH]; intros H; simpl; [reflexivity |].
  rewrite (H a (or_introl eq_refl)), IH; [reflexivity |]. intros x Hx. apply H. right. exact Hx.
Qed.

(** What [save_resume_route] does for a stored account and a fresh id. *)
Lemma save_resume_route_ok (new_id : Z) (request : SaveResumeRequest) (caller : Payload)
  (s : AppState) (u : User) :
  find_user (p_user_id caller) (users s) = Some u ->
  ~ In new_id (resume_ids u) ->
  (forall r, In r (resumes s) -> resume_id r <> new_id) ->
  save_resume_route new_id request caller s =
    (inl (mkResumeResponse new_id (Some (resume_title request u)) (req_json_data request)),
     mkApp (replace_user (set_resume_ids u (resume_ids u ++ [new_id])) (users s))
           (resumes s ++ [mkResume new_id (p_user_id caller) (Some (resume_title request u))
                                   (req_json_data request)])
           (events s)).
Proof.
  intros Hf Hn Hfresh.
  unfold save_resume_route, catch, bind at 1, user_get. rewrite Hf.
  unfold bind at 1, insert_resume. cbn [resume_id].
  rewrite existsb_false
    by (intros x Hx; apply Z.eqb_neq, Hfresh, Hx).
  unfold bind. cbn [users resumes events].
  rewrite (on_user_found (p_user_id caller) _
             (mkApp (users s) (resumes s ++ [mkResume new_id (p_user_id caller)
                                  (Some (resume_title request u)) (req_json_data request)])
                    (events s)) u Hf).
  rewrite add_resume_eq, (existsb_eqb_notin _ _ Hn). reflexivity.
Qed.

(** Saving a resume and deleting it again, as the same account, gives back
    the store as it was: the account's [resume_ids] and [resume_count], and
    the resume collection. *)
Theorem save_delete_roundtrip (new_id : Z) (request : SaveResumeRequest) (caller : Payload)
  (s : AppState) (u : User) :
  find_user (p_user_id caller) (users s) = Some u ->
  resume_count u = Z.of_nat (List.length (resume_ids u)) ->
  ~ In new_id (resume_ids u) ->
  (forall r, In r (resumes s) -> resume_id r <> new_id) ->
  (save_resume_route new_id request caller ;;; delete_my_resume new_id caller) s
  = (inl "Resume deleted successfully"%string, s).
Proof.
  intros Hf Hc Hn Hfresh. pose proof (find_user_id _ _ _ Hf) as Hid.
  unfold bind at 1. rewrite (save_resume_route_ok new_id request caller s u Hf Hn Hfresh).
  set (nr := mkResume new_id (p_user_id caller) (Some (resume_title request u)) (req_json_data request)).
  set (u1 := set_resume_ids u (resume_ids u ++ [new_id])).
  unfold delete_my_resume, catch, bind at 1, find_one. cbn [resumes users events].
  rewrite find_app.
  rewrite find_none
    by (intros x Hx; unfold resume_matches; rewrite (proj2 (Z.eqb_neq _ _) (Hfresh x Hx)); reflexivity).
  unfold find. unfold nr at 1. unfold resume_matches. cbn [resume_id user_id].
  rewrite !Z.eqb_refl. cbn [andb].
  assert (Hf1 : find_user (p_user_id caller) (replace_user u1 (users s)) = Some u1).
  { rewrite <- Hid. change (id u) with (id u1). apply (find_replace_user _ u). simpl. rewrite Hid. exact Hf. }
  unfold bind at 1, user_get. cbn [users]. rewrite Hf1.
  unfold bind at 1.
  rewrite (on_user_found _ _ (mkApp (replace_user u1 (users s)) (resumes s ++ [nr]) (events s)) u1 Hf1).
  rewrite remove_resume_eq. cbn [fst snd].
  replace (existsb (Z.eqb (resume_id nr)) (resume_ids u1)) with true
    by (symmetry; apply existsb_eqb_In; simpl; apply in_or_app; right; left; reflexivity).
  change (resume_id nr) with new_id. unfold u1 at 2. cbn [resume_ids set_resume_ids].
  rewrite list_remove_app_notin by exact Hn.
  cbn [users resumes events]. rewrite replace_replace_user by reflexivity.
  replace (set_resume_ids u1 (resume_ids u)) with u
    by (unfold u1; destruct u; simpl in *; rewrite Hc; reflexivity).
  rewrite (replace_found_user _ _ _ Hf).
  unfold bind, delete_resume, ret. cbn [users resumes events].
  change (resume_id nr) with new_id. rewrite filter_app. rewrite filter_all
    by (intros x Hx; rewrite (proj2 (Z.eqb_neq _ _) (Hfresh x Hx)); reflexivity).
  simpl. rewrite Z.eqb_refl. simpl. rewrite app_nil_r. destruct s. reflexivity.
Qed.

Lemma save_delete_roundtrip_witness :
  let caller := tok_payload (token_for 1) in
  let request := mkSaveResumeRequest None 5 in
  find_user 1 (users store_r) = Some (mkUser 1 TRIAL 10 0 [7] 1) /\
  (save_resume_route 8 request caller ;;; delete_my_resume 8 caller) store_r
  = (inl "Resume deleted successfully"%string, store_r).
Proof.
  intros caller request. split; [reflexivity |].
  apply (save_delete_roundtrip 8 request caller store_r (mkUser 1 TRIAL 10 0 [7] 1));
    [reflexivity | reflexivity | simpl; lia |].
  intros r [<- | []]. simpl. discriminate.
Defined.

Example save_default_title :
  fst (save_resume_route 8 (mkSaveResumeRequest (Some []) 5) (tok_payload (token_for 1)) store_r)
  = inl (mkResumeResponse 8 (Some (of_string "Resume 2")) 5).
Proof. vm_compute. reflexivity. Qed.

(** A successful save: the response carries the new id, the title
    ([request.title], or "Resume {resume_count + 1}" when it is missing or
    empty) and the JSON; the account's [resume_ids] gains the new id at its
    end and [resume_count] follows; the caller's [get_my_resumes] list gains
    exactly the new resume at its end, and every other account's list is
    unchanged. *)
Theorem save_resume_route_effect (new_id : Z) (request : SaveResumeRequest) (caller : Payload)
  (s : AppState) (u : User) :
  find_user (p_user_id caller) (users s) = Some u ->
  ~ In new_id (resume_ids u) ->
  (forall r, In r (resumes s) -> resume_id r <> new_id) ->
  let resp := mkResumeResponse new_id (Some (resume_title request u)) (req_json_data request) in
  let s' := snd (save_resume_route new_id request caller s) in
  fst (save_resume_route new_id request caller s) = inl resp /\
  (exists u', find_user (p_user_id caller) (users s') = Some u' /\
     resume_ids u' = resume_ids u ++ [new_id] /\
     resume_count u' = Z.of_nat (List.length (resume_ids u)) + 1) /\
  (exists l, fst (get_my_resumes caller s) = inl l /\ fst (get_my_resumes caller s') = inl (l ++ [resp])) /\
  (forall other, p_user_id other <> p_user_id caller ->
     fst (get_my_resumes other s') = fst (get_my_resumes other s)).
Proof.
  intros Hf Hn Hfresh resp s'. pose proof (find_user_id _ _ _ Hf) as Hid.
  unfold s'. rewrite (save_resume_route_ok new_id request caller s u Hf Hn Hfresh). cbn [fst snd].
  split; [reflexivity |]. split; [| split].
  - exists (set_resume_ids u (resume_ids u ++ [new_id])). split; [| split].
    + cbn [users]. rewrite <- Hid.
      change (id u) with (id (set_resume_ids u (resume_ids u ++ [new_id]))).
      apply (find_replace_user _ u). simpl. rewrite Hid. exact Hf.
    + reflexivity.
    + simpl. rewrite length_app. simpl. lia.
  - eexists. split; [reflexivity |].
    unfold get_my_resumes, find_by_user. unfold_monad. cbn [resumes].
    rewrite filter_app. simpl. rewrite Z.eqb_refl. rewrite map_app. reflexivity.
  - intros other Ho. unfold get_my_resumes, find_by_user. unfold_monad. cbn [resumes].
    rewrite filter_app. simpl.
    rewrite (proj2 (Z.eqb_neq _ _) (not_eq_sym Ho)). rewrite app_nil_r. reflexivity.
Qed.

Lemma save_resume_route_effect_witness :
  let caller := tok_payload (token_for 1) in
  let request := mkSaveResumeRequest None 5 in
  let resp := mkResumeResponse 8 (Some (resume_title request (mkUser 1 TRIAL 10 0 [7] 1))) 5 in
  let s' := snd (save_resume_route 8 request caller store_r) in
  find_user 1 (users store_r) = Some (mkUser 1 TRIAL 10 0 [7] 1) /\
  fst (save_resume_route 8 request caller store_r) = inl resp /\
  (exists u', find_user 1 (users s') = Some u' /\ resume_ids u' = [7; 8] /\
     resume_count u' = 1 + 1) /\
  (exists l, fst (get_my_resumes caller store_r) = inl l /\
     fst (get_my_resumes caller s') = inl (l ++ [resp])) /\
  (forall other, p_user_id other <> 1 ->
     fst (get_my_resumes other s') = fst (get_my_resumes other store_r)).
Proof.
  intros caller request resp s'. split; [reflexivity |].
  apply (save_resume_route_effect 8 request caller store_r (mkUser 1 TRIAL 10 0 [7] 1));
    [reflexivity | simpl; lia |].
  intros r [<- | []]. simpl. discriminate.
Defined.

(** [save_resume_route] for an account that is not stored: its single
    [except Exception] clause turns its own 404 "User not found" into a 500
    "Error saving resume: ..." error, and nothing is written. *)
Theorem save_resume_unknown_user (new_id : Z) (request : SaveResumeRequest) (caller : Payload)
  (s : AppState) :
  find_user (p_user_id caller) (users s) = None ->
  save_resume_route new_id request caller s
  = (inr (HTTPException 500 (DWrapped "Error saving resume: "
                              (HTTPException 404 (DMsg "User not found")))), s).
Proof. intros Hf. unfold save_resume_route, user_get. unfold_monad. rewrite Hf. reflexivity. Qed.

Lemma save_resume_unknown_user_witness :
  find_user 3 (users store_r) = None /\
  save_resume_route 8 edit_request (tok_payload (token_for 3)) store_r
  = (inr (HTTPException 500 (DWrapped "Error saving resume: "
                              (HTTPException 404 (DMsg "User not found")))), store_r).
Proof. split; [reflexivity | apply save_resume_unknown_user; reflexivity]. Defined.

Lemma find_unique {A} (f : A -> bool) (l : list A) (x : A) :
  In x l -> f x = true -> (forall y, In y l -> f y = true -> y = x) -> find f l = Some x.
Proof.
  induction l as [| a l IH]; simpl; intros Hx Hfx Hu; [contradiction |].
  destruct (f a) eqn:E.
  - rewrite (Hu a (or_introl eq_refl) E). reflexivity.
  - destruct Hx as [<- | Hx]; [congruence |].
    apply IH; auto.
Qed.

(** The owner of a resume gets it back from [get_my_resume_by_id], and the
    store is unchanged (resume ids are unique in the collection). *)
Theorem owner_gets_own_resume (s : AppState) (caller : Payload) (r : Resume) :
  NoDup (map resume_id (resumes s)) ->
  In r (resumes s) -> user_id r = p_user_id caller ->
  get_my_resume_by_id (resume_id r) caller s = (inl (to_response r), s).
Proof.
  intros Hnd Hin Hown. unfold get_my_resume_by_id, find_one. unfold_monad.
  rewrite (find_unique _ _ r Hin).
  - reflexivity.
  - unfold resume_matches. rewrite Hown, !Z.eqb_refl. reflexivity.
  - intros y Hy Hm. unfold resume_matches in Hm. apply andb_prop in Hm as [E _].
    apply Z.eqb_eq in E. apply (NoDup_map_inj resume_id (resumes s)); auto.
Qed.

Lemma owner_gets_own_resume_witness :
  NoDup (map resume_id (resumes store_r)) /\
  get_my_resume_by_id 7 (tok_payload (token_for 1)) store_r
  = (inl (mkResumeResponse 7 (Some (of_string "CV")) 42), store_r).
Proof.
  assert (Hnd : NoDup (map resume_id (resumes store_r))) by (simpl; repeat constructor; auto).
  split; [exact Hnd |].
  apply (owner_gets_own_resume store_r (tok_payload (token_for 1)) (mkResume 7 1 (Some (of_string "CV")) 42));
    [exact Hnd | left; reflexivity | reflexivity].
Defined.

(** [update_my_resume] never writes to the store: when the caller owns the
    resume, reading [request.yaml_content] (a field [SaveResumeRequest] does
    not declare) raises [AttributeError] before [resume.save()], which the
    route reports as a 500 "Error updating resume: ..." error. *)
Theorem update_never_writes (rid : Z) (request : SaveResumeRequest) (caller : Payload)
  (s : AppState) :
  snd (update_my_resume rid request caller s) = s /\
  (forall r, find (resume_matches rid (p_user_id caller)) (resumes s) = Some r ->
     fst (update_my_resume rid request caller s)
     = inr (HTTPException 500 (DWrapped "Error updating resume: "
                                 (AttributeError "SaveResumeRequest" "yaml_content")))).
Proof.
  unfold update_my_resume, find_one, SaveResumeRequest_getattr. unfold_monad.
  destruct (find (resume_matches rid (p_user_id caller)) (resumes s)) eqn:E.
  - split; [reflexivity |]. intros r' _. reflexivity.
  - split; [reflexivity | discriminate].
Qed.

Lemma delete_my_resume_resumes (rid : Z) (caller : Payload) (s : AppState) (msg : string) :
  fst (delete_my_resume rid caller s) = inl msg ->
  exists r, resume_id r = rid /\
    resumes (snd (delete_my_resume rid caller s))
    = filter (fun r0 => negb (resume_id r0 =? resume_id r)) (resumes s).
Proof.
  unfold delete_my_resume, find_one. unfold_monad.
  destruct (find (resume_matches rid (p_user_id caller)) (resumes s)) as [r |] eqn:E;
    [| discriminate].
  apply find_some in E as [_ Hm]. unfold resume_matches in Hm.
  apply andb_prop in Hm as [Hr _]. apply Z.eqb_eq in Hr.
  unfold user_get. destruct (find_user (p_user_id caller) (users s)) as [u |] eqn:Eu.
  - unfold on_user. rewrite Eu. destruct (remove_resume (resume_id r) u) as [res u'] eqn:Er.
    rewrite remove_resume_eq in Er. injection Er as <- <-. simpl.
    intros _. exists r. split; [exact Hr | reflexivity].
  - simpl. intros _. exists r. split; [exact Hr | reflexivity].
Qed.

(** Once [delete_my_resume rid] has succeeded, the resume is gone for every
    caller: get, update and delete of [rid] all answer the 404 "Resume not
    found or access denied" error and change nothing. *)
Theorem delete_is_final (rid : Z) (caller caller' : Payload) (request : SaveResumeRequest)
  (s : AppState) (msg : string) :
  fst (delete_my_resume rid caller s) = inl msg ->
  let s' := snd (delete_my_resume rid caller s) in
  get_my_resume_by_id rid caller' s' = (inr resume_not_found, s') /\
  update_my_resume rid request caller' s' = (inr resume_not_found, s') /\
  delete_my_resume rid caller' s' = (inr resume_not_found, s').
Proof.
  intros Hok s'. destruct (delete_my_resume_resumes rid caller s msg Hok) as [r [Hr Hres]].
  apply resume_routes_not_found. unfold s'. rewrite Hres.
  apply find_none. intros x Hx. apply filter_In in Hx as [_ Hx].
  unfold resume_matches. rewrite <- Hr.
  destruct (resume_id x =? resume_id r); [discriminate | reflexivity].
Qed.

Lemma delete_is_final_witness :
  let s' := snd (delete_my_resume 7 (tok_payload (token_for 1)) store_r) in
  fst (delete_my_resume 7 (tok_payload (token_for 1)) store_r)
    = inl "Resume deleted successfully"%string /\
  get_my_resume_by_id 7 (tok_payload (token_for 1)) s' = (inr resume_not_found, s') /\
  update_my_resume 7 edit_request (tok_payload (token_for 1)) s' = (inr resume_not_found, s') /\
  delete_my_resume 7 (tok_payload (token_for 1)) s' = (inr resume_not_found, s').
Proof.
  intros s'. split; [reflexivity |].
  apply (delete_is_final 7 (tok_payload (token_for 1)) (tok_payload (token_for 1)) edit_request
           store_r "Resume deleted successfully"%string). reflexivity.
Defined.

Lemma update_never_writes_witness :
  find (resume_matches 7 (p_user_id (tok_payload (token_for 1)))) (resumes store_r)
    = Some (mkResume 7 1 (Some (of_string "CV")) 42) /\
  snd (update_my_resume 7 edit_request (tok_payload (token_for 1)) store_r) = store_r /\
  fst (update_my_resume 7 edit_request (tok_payload (token_for 1)) store_r)
  = inr (HTTPException 500 (DWrapped "Error updating resume: "
                              (AttributeError "SaveResumeRequest" "yaml_content"))).
Proof.
  split; [reflexivity |].
  destruct (update_never_writes 7 edit_request (tok_payload (token_for 1)) store_r) as [H1 H2].
  split; [exact H1 | apply (H2 (mkResume 7 1 (Some (of_string "CV")) 42)); reflexivity].
Defined.

(** ** More of the token code *)

Lemma jwt_decode_payload (now : Z) (t : Token) (p : Payload) :
  jwt_decode now t = inl p -> p = tok_payload t.
Proof.
  unfold jwt_decode. destruct (negb (tok_signed t)); [discriminate |].
  destruct (now <? p_iat (tok_payload t)); [discriminate |].
  destruct (p_exp (tok_payload t) <=? now); [discriminate |]. congruence.
Qed.

Lemma verify_fresh_access (offset wall uid : Z) (email : string) (now : Z) :
  let t := fst (generate_jwt_token (fixed_offset_zone offset) wall uid email) in
  verify_jwt_token now t =
    if now <? wall - offset then inr (HTTPException 401 (DMsg "Invalid token"))
    else if wall + 3600 - offset <=? now then inr (HTTPException 401 (DMsg "Token expired"))
    else inl (mkPayload uid email (wall + 3600 - offset) (wall - offset) (Some "access"%string)).
Proof.
  simpl. unfold verify_jwt_token, jwt_decode, fixed_offset_zone. simpl.
  destruct (now <? wall - offset); [reflexivity |].
  destruct (wall + 3600 - offset <=? now); reflexivity.
Qed.

(** The access token [generate_jwt_token] issues on a fixed-offset host at
    wall-clock time [wall] is accepted by the protected routes, with the
    user id and email it was issued for, exactly during the hour starting
    at its [iat]; after that it gets "Token expired", and before its [iat]
    "Invalid token". *)
Theorem access_token_lifetime (offset wall uid : Z) (email : string) (now : Z) :
  let t := fst (generate_jwt_token (fixed_offset_zone offset) wall uid email) in
  (wall - offset <= now < wall - offset + 3600 ->
     verify_jwt_token now t
     = inl (mkPayload uid email (wall + 3600 - offset) (wall - offset) (Some "access"%string))) /\
  (wall - offset + 3600 <= now ->
     verify_jwt_token now t = inr (HTTPException 401 (DMsg "Token expired"))) /\
  (now < wall - offset ->
     verify_jwt_token now t = inr (HTTPException 401 (DMsg "Invalid token"))).
Proof.
  intros t. unfold t. rewrite verify_fresh_access.
  split; [| split]; intros H.
  - destruct (now <? wall - offset) eqn:E1; [apply Z.ltb_lt in E1; lia |].
    destruct (wall + 3600 - offset <=? now) eqn:E2; [apply Z.leb_le in E2; lia | reflexivity].
  - destruct (now <? wall - offset) eqn:E1; [apply Z.ltb_lt in E1; lia |].
    destruct (wall + 3600 - offset <=? now) eqn:E2; [reflexivity | apply Z.leb_gt in E2; lia].
  - destruct (now <? wall - offset) eqn:E1; [reflexivity | apply Z.ltb_ge in E1; lia].
Qed.

Lemma access_token_lifetime_witness :
  let t := fst (generate_jwt_token (fixed_offset_zone 0) 1000 1 "user@example.com") in
  (1000 - 0 <= 1500 < 1000 - 0 + 3600) /\
  verify_jwt_token 1500 t
  = inl (mkPayload 1 "user@example.com" (1000 + 3600 - 0) (1000 - 0) (Some "access"%string)) /\
  (1000 - 0 + 3600 <= 4600) /\
  verify_jwt_token 4600 t = inr (HTTPException 401 (DMsg "Token expired")) /\
  (999 < 1000 - 0) /\
  verify_jwt_token 999 t = inr (HTTPException 401 (DMsg "Invalid token")).
Proof.
  intros t.
  split; [lia | split; [apply (proj1 (access_token_lifetime 0 1000 1 "user@example.com" 1500)); lia |]].
  split; [lia | split; [apply (proj1 (proj2 (access_token_lifetime 0 1000 1 "user@example.com" 4600))); lia |]].
  split; [lia | apply (proj2 (proj2 (access_token_lifetime 0 1000 1 "user@example.com" 999))); lia].
Defined.

(** On a fixed-offset host, the access token [refresh_token] returns is
    accepted by the protected routes during the hour after it is issued,
    and carries the user id and email of the refresh token it came from;
    [expires_in] is 3600. *)
Theorem refresh_then_verify (offset now now_wall now' : Z) (t a : Token) (n : Z) :
  refresh_token (fixed_offset_zone offset) now now_wall t = inl (a, n) ->
  now_wall - offset <= now' < now_wall - offset + 3600 ->
  n = 3600 /\
  exists p, verify_jwt_token now' a = inl p /\
    p_user_id p = p_user_id (tok_payload t) /\ p_email p = p_email (tok_payload t).
Proof.
  intros Hr Hnow. unfold refresh_token in Hr.
  destruct (jwt_decode now t) as [q | []] eqn:Ed; try discriminate.
  apply jwt_decode_payload in Ed. subst q.
  destruct (negb _); [discriminate |].
  assert (Ha : fst (generate_jwt_token (fixed_offset_zone offset) now_wall
                     (p_user_id (tok_payload t)) (p_email (tok_payload t))) = a /\ n = 3600)
    by (injection Hr; auto).
  destruct Ha as [Ha ->]. split; [reflexivity |].
  exists (mkPayload (p_user_id (tok_payload t)) (p_email (tok_payload t)) (now_wall + 3600 - offset)
                    (now_wall - offset) (Some "access"%string)).
  split; [| split; reflexivity].
  rewrite <- Ha. rewrite (verify_fresh_access offset now_wall).
  destruct (now' <? now_wall - offset) eqn:E1; [apply Z.ltb_lt in E1; lia |].
  destruct (now_wall + 3600 - offset <=? now') eqn:E2; [apply Z.leb_le in E2; lia | reflexivity].
Qed.

Lemma refresh_then_verify_witness :
  let rt := snd (generate_jwt_token (fixed_offset_zone 0) 1000 1 "user@example.com") in
  refresh_token (fixed_offset_zone 0) 2000 2000 rt
    = inl (fst (generate_jwt_token (fixed_offset_zone 0) 2000 1 "user@example.com"), 3600) /\
  2000 - 0 <= 3000 < 2000 - 0 + 3600 /\
  3600 = 3600 /\
  exists p, verify_jwt_token 3000 (fst (generate_jwt_token (fixed_offset_zone 0) 2000 1 "user@example.com"))
              = inl p /\ p_user_id p = p_user_id (tok_payload rt) /\ p_email p = p_email (tok_payload rt).
Proof.
  intros rt. split; [reflexivity | split; [lia |]].
  apply (refresh_then_verify 0 2000 2000 3000 rt); [reflexivity | lia].
Defined.

(** A token whose signature does not check is refused everywhere: the
    protected routes answer 401 "Invalid token" without running their
    handler or touching the store, and [refresh_token] answers 401 "Invalid
    refresh token", whatever the payload says. *)
Theorem unsigned_token_rejected {A} (local_to_posix : Z -> Z) (now now_wall : Z) (t : Token)
  (handler : Payload -> AppM A) (s : AppState) :
  tok_signed t = false ->
  verify_jwt_token now t = inr (HTTPException 401 (DMsg "Invalid token")) /\
  with_auth now t handler s = (inr (HTTPException 401 (DMsg "Invalid token")), s) /\
  refresh_token local_to_posix now now_wall t = inr (HTTPException 401 (DMsg "Invalid refresh token")).
Proof.
  intros Hs. unfold with_auth, verify_jwt_token, refresh_token, jwt_decode. rewrite Hs.
  repeat split.
Qed.

Lemma unsigned_token_rejected_witness :
  let forged := mkToken (mkPayload 2 "user@example.com" 999999 0 (Some "access"%string)) false in
  tok_signed forged = false /\
  verify_jwt_token 1500 forged = inr (HTTPException 401 (DMsg "Invalid token")) /\
  with_auth 1500 forged (enhance_section gen_ok no_files text_request) store0
    = (inr (HTTPException 401 (DMsg "Invalid token")), store0) /\
  refresh_token (fixed_offset_zone 0) 1500 1500 forged
    = inr (HTTPException 401 (DMsg "Invalid refresh token")).
Proof.
  intros forged. split; [reflexivity |].
  apply (unsigned_token_rejected (fixed_offset_zone 0) 1500 1500 forged). reflexivity.
Defined.

(** ** More of the ledger *)

Lemma run_call_total (c : LedgerCall) (u : User) :
  subscription_type u <> PRO ->
  credits_remaining u + credits_used u
    <= credits_remaining (snd (run_call c u)) + credits_used (snd (run_call c u)) /\
  (forall op, c = Reserve op ->
     credits_remaining (snd (run_call c u)) + credits_used (snd (run_call c u))
     = credits_remaining u + credits_used u).
Proof.
  intros Hnp. destruct c as [op | op]; simpl.
  - rewrite check_and_use_credits_eq by exact Hnp.
    destruct (cost_of op <=? credits_remaining u); simpl; split; intros; lia.
  - rewrite refund_credits_eq by exact Hnp. simpl. split; [| discriminate].
    pose proof (cost_of_pos op). lia.
Qed.

(** For an account that is not Pro, no sequence of reserves and refunds
    lowers [credits_remaining + credits_used], and reserves alone keep it
    fixed. A single refund made while [credits_used] is below the
    operation's cost raises it: [credits_used] is floored at 0 while
    [credits_remaining] gets the full cost back. *)
Theorem ledger_total_never_decreases (cs : list LedgerCall) (u : User) :
  subscription_type u <> PRO ->
  credits_remaining u + credits_used u
    <= credits_remaining (run_calls cs u) + credits_used (run_calls cs u) /\
  ((forall c, In c cs -> exists op, c = Reserve op) ->
     credits_remaining (run_calls cs u) + credits_used (run_calls cs u)
     = credits_remaining u + credits_used u) /\
  (forall op, credits_used u < cost_of op ->
     credits_remaining u + credits_used u
     < credits_remaining (run_calls [Refund op] u) + credits_used (run_calls [Refund op] u)).
Proof.
  intros Hnp. split; [| split].
  - revert u Hnp. induction cs as [| c cs IH]; intros u Hnp; simpl; [lia |].
    destruct (run_call_total c u Hnp) as [H1 _].
    assert (Hnp' : subscription_type (snd (run_call c u)) <> PRO) by (rewrite run_call_tier; exact Hnp).
    specialize (IH _ Hnp'). lia.
  - revert u Hnp. induction cs as [| c cs IH]; intros u Hnp Hall; simpl; [reflexivity |].
    destruct (run_call_total c u Hnp) as [_ H2].
    assert (Hnp' : subscription_type (snd (run_call c u)) <> PRO) by (rewrite run_call_tier; exact Hnp).
    rewrite IH by (auto || (intros c' Hc'; apply Hall; right; exact Hc')).
    destruct (Hall c (or_introl eq_refl)) as [op ->]. apply (H2 op eq_refl).
  - intros op Hlt. simpl. rewrite refund_credits_eq by exact Hnp. simpl. lia.
Qed.

Lemma ledger_total_never_decreases_witness :
  let cs := [Refund "generate"]%string in
  BASIC <> PRO /\
  credits_used (mkUser 4 BASIC 5 0 [] 0) < cost_of "generate" /\
  5 + 0 < credits_remaining (run_calls cs (mkUser 4 BASIC 5 0 [] 0))
          + credits_used (run_calls cs (mkUser 4 BASIC 5 0 [] 0)).
Proof.
  intros cs. split; [discriminate | split; [reflexivity |]].
  apply (proj2 (proj2 (ledger_total_never_decreases cs (mkUser 4 BASIC 5 0 [] 0) ltac:(discriminate)))).
  reflexivity.
Defined.

(** For a Pro account, any sequence of reserves and refunds leaves
    [credits_remaining] (and every other field) as it was and adds to
    [credits_used] exactly the cost of the reserves. *)
Theorem pro_ledger_sequence (cs : list LedgerCall) (u : User) :
  subscription_type u = PRO ->
  run_calls cs u = set_credits_used u (credits_used u + reserved_cost cs).
Proof.
  revert u. induction cs as [| [op | op] cs IH]; intros u Hp; simpl.
  - destruct u; unfold set_credits_used; simpl. f_equal. lia.
  - rewrite check_and_use_credits_pro by exact Hp. simpl.
    rewrite IH by exact Hp. destruct u; unfold set_credits_used; simpl. f_equal. lia.
  - rewrite refund_credits_pro by exact Hp. simpl. apply IH, Hp.
Qed.

Lemma pro_ledger_sequence_witness :
  let cs := [Reserve "generate"; Refund "generate"; Reserve "analyze"]%string in
  subscription_type pro_user = PRO /\
  run_calls cs pro_user = set_credits_used pro_user (credits_used pro_user + reserved_cost cs) /\
  run_calls cs pro_user = mkUser 2 PRO 0 55 [] 0.
Proof.
  intros cs. split; [reflexivity |].
  assert (H : run_calls cs pro_user = set_credits_used pro_user (credits_used pro_user + reserved_cost cs))
    by (apply pro_ledger_sequence; reflexivity).
  split; [exact H | rewrite H; reflexivity].
Defined.

(** ** services/json_parser.py *)

Lemma lstrip_spaces (ws x : pystr) : forallb py_isspace ws = true -> lstrip (ws ++ x) = lstrip x.
Proof.
  induction ws as [| c ws IH]; simpl; [reflexivity |].
  intros H. apply andb_prop in H as [Hc Hws]. rewrite Hc. apply IH, Hws.
Qed.

Lemma forallb_rev {A} (f : A -> bool) (l : list A) : forallb f (rev l) = forallb f l.
Proof.
  induction l as [| a l IH]; simpl; [reflexivity |].
  rewrite forallb_app, IH. simpl. rewrite andb_true_r, andb_comm. reflexivity.
Qed.

Lemma lstrip_open_fence (y : pystr) : lstrip (of_string "```json" ++ y) = of_string "```json" ++ y.
Proof. reflexivity. Qed.

Lemma lstrip_close_fence (y : pystr) : lstrip (of_string "```" ++ y) = of_string "```" ++ y.
Proof. reflexivity. Qed.

(** [strip] of a fenced text keeps the fences and drops the blanks around them. *)
Lemma strip_fenced (ws1 t ws2 : pystr) :
  forallb py_isspace ws1 = true -> forallb py_isspace ws2 = true ->
  strip (ws1 ++ of_string "```json" ++ t ++ of_string "```" ++ ws2)
  = of_string "```json" ++ t ++ of_string "```".
Proof.
  intros H1 H2. unfold strip. rewrite lstrip_spaces by exact H1.
  rewrite lstrip_open_fence.
  replace (of_string "```json" ++ t ++ of_string "```" ++ ws2)
    with ((of_string "```json" ++ t ++ of_string "```") ++ ws2) by (rewrite <- !app_assoc; reflexivity).
  rewrite rev_app_distr, lstrip_spaces by (rewrite forallb_rev; exact H2).
  rewrite !rev_app_distr. change (rev (of_string "```")) with (of_string "```").
  rewrite <- app_assoc, lstrip_close_fence.
  rewrite !rev_app_distr, !rev_involutive. change (rev (of_string "```")) with (of_string "```").
  rewrite <- app_assoc. reflexivity.
Qed.

(** When [json.loads] refuses the reply as it stands, [parse_json] recovers
    a JSON text wrapped in a Markdown fence opened by "```json" and closed
    by "```", with blanks around it: it parses what is between the fences
    (stripped). *)
Theorem parse_json_fenced (J : Type) (json_loads : pystr -> option J) (ws1 t ws2 : pystr) :
  forallb py_isspace ws1 = true -> forallb py_isspace ws2 = true ->
  json_loads (ws1 ++ of_string "```json" ++ t ++ of_string "```" ++ ws2) = None ->
  parse_json J json_loads (ws1 ++ of_string "```json" ++ t ++ of_string "```" ++ ws2)
  = json_loads (strip t).
Proof.
  intros H1 H2 Hraw. unfold parse_json. rewrite Hraw. cbv zeta.
  rewrite (strip_fenced ws1 t ws2 H1 H2).
  assert (Hs : startswith (of_string "```json" ++ t ++ of_string "```") (of_string "```json") = true).
  { unfold startswith. rewrite firstn_app, firstn_all, Nat.sub_diag. simpl. apply pystr_eqb_refl. }
  rewrite Hs.
  replace (skipn 7 (of_string "```json" ++ t ++ of_string "```")) with (t ++ of_string "```")
    by (change 7%nat with (List.length (of_string "```json"));
        rewrite skipn_app, skipn_all, Nat.sub_diag; reflexivity).
  assert (He : endswith (t ++ of_string "```") (of_string "```") = true).
  { unfold endswith. rewrite length_app.
    replace (List.length t + List.length (of_string "```") - List.length (of_string "```"))%nat
      with (List.length t) by lia.
    rewrite skipn_app, skipn_all, Nat.sub_diag. cbn [app skipn].
    rewrite pystr_eqb_refl, andb_true_r. apply Nat.leb_le. lia. }
  rewrite He. rewrite length_app.
  replace (List.length t + List.length (of_string "```") - 3)%nat with (List.length t)
    by (simpl; lia).
  rewrite firstn_app, firstn_all, Nat.sub_diag. simpl. rewrite app_nil_r. reflexivity.
Qed.

Lemma parse_json_fenced_witness :
  forallb py_isspace [10] = true /\ forallb py_isspace [32; 10] = true /\
  loads_braces ([10] ++ of_string "```json" ++ [10; 123; 125; 10] ++ of_string "```" ++ [32; 10]) = None /\
  parse_json nat loads_braces ([10] ++ of_string "```json" ++ [10; 123; 125; 10] ++ of_string "```" ++ [32; 10])
  = Some 0%nat.
Proof.
  split; [reflexivity | split; [reflexivity | split; [vm_compute; reflexivity |]]].
  rewrite (parse_json_fenced nat loads_braces [10] [10; 123; 125; 10] [32; 10]);
    [vm_compute; reflexivity | reflexivity | reflexivity | vm_compute; reflexivity].
Defined.

(** ** More of the ATS analysis route *)

(** The input checks of [analyze_ats], in the order the controller makes
    them: with no resume file and no (non-empty) resume text it answers 400
    at once, whatever the job inputs, calling nothing; a resume file whose
    extracted text is empty gets 400 after the extraction call; with resume
    content from either source but neither a job URL nor a job description
    it answers 400 without calling the Content Generator; and whatever the
    resume source and the job source, when the Content Generator raises
    something other than an [HTTPException], the caller gets a 500
    "Error analyzing ATS compatibility: ..." error. [rc] is the resume
    content and [ev_r] the external calls made to read it; [jc] is the job
    content and [ev_j] the calls made to read it. *)
Theorem analyze_ats_errors (gen : Generator) (src : AtsSources)
  (resume_file : option (list Z)) (resume_text job_description job_url : option pystr)
  (s : AppState) :
  (resume_file = None -> opt_truthy resume_text = None ->
     analyze_ats gen src resume_file resume_text job_description job_url s
     = (inr (HTTPException 400 (DMsg "Either resume_file or resume_text must be provided")), s)) /\
  (forall bytes, resume_file = Some bytes -> str_truthy (extract_raw_text src bytes) = false ->
     analyze_ats gen src resume_file resume_text job_description job_url s
     = (inr (HTTPException 400 (DMsg "Could not extract text from resume file")),
        mkApp (users s) (resumes s) (events s ++ [EvExtractText]))) /\
  (forall rc ev_r,
     (resume_file = None /\ opt_truthy resume_text = Some rc /\ ev_r = [] \/
      exists bytes, resume_file = Some bytes /\ extract_raw_text src bytes = rc /\
                    str_truthy rc = true /\ ev_r = [EvExtractText]) ->
     (opt_truthy job_url = None -> opt_truthy job_description = None ->
        analyze_ats gen src resume_file resume_text job_description job_url s
        = (inr (HTTPException 400 (DMsg "Either job_description or job_url must be provided")),
           mkApp (users s) (resumes s) (events s ++ ev_r))) /\
     (forall jc ev_j e,
        (exists url, opt_truthy job_url = Some url /\ scrape_job src url = jc /\ ev_j = [EvScrape url]) \/
        (opt_truthy job_url = None /\ opt_truthy job_description = Some jc /\ ev_j = []) ->
        gen (of_string "ats_analysis") rc (ats_analysis_prompt rc jc) = inr e ->
        (forall c d, e <> HTTPException c d) ->
        analyze_ats gen src resume_file resume_text job_description job_url s
        = (inr (HTTPException 500 (DWrapped "Error analyzing ATS compatibility: " e)),
           mkApp (users s) (resumes s)
             (events s ++ ev_r ++ ev_j
                ++ [EvGenerate (of_string "ats_analysis") rc (ats_analysis_prompt rc jc)])))).
Proof.
  unfold analyze_ats, analyze_ats_compatibility. split; [| split].
  - intros -> H. rewrite H. reflexivity.
  - intros bytes -> H. unfold log. unfold_monad. rewrite H. reflexivity.
  - intros rc ev_r Hres. split.
    + intros Hu Hd.
      destruct Hres as [[-> [Hr ->]] | [bytes [-> [Hx [Ht ->]]]]].
      * rewrite Hr, Hu, Hd. unfold_monad. rewrite app_nil_r. destruct s; reflexivity.
      * unfold log. unfold_monad. rewrite Hx, Ht, Hu, Hd. reflexivity.
    + intros jc ev_j e Hjob Hg He.
      destruct e as [c d | o a | m]; [exfalso; exact (He c d eq_refl) | |];
      (destruct Hres as [[-> [Hr ->]] | [bytes [-> [Hx [Ht ->]]]]];
       destruct Hjob as [[url [Hu [Hs ->]]] | [Hu [Hd ->]]];
       subst; unfold call_generator, log; unfold_monad;
       repeat (first [match goal with H : _ = _ |- _ => rewrite H end
                     | progress cbn beta iota zeta delta [negb]]);
       cbn [users resumes events]; repeat rewrite <- app_assoc; reflexivity).
Qed.

Lemma analyze_ats_errors_witness :
  let r := of_string "Python developer" in
  let j := of_string "Hiring" in
  opt_truthy (Some []) = None /\
  analyze_ats gen_fail ats_sources None (Some []) (Some j) None store0
  = (inr (HTTPException 400 (DMsg "Either resume_file or resume_text must be provided")), store0) /\
  str_truthy (extract_raw_text ats_sources [37]) = false /\
  analyze_ats gen_fail ats_sources (Some [37]) None (Some j) None store0
  = (inr (HTTPException 400 (DMsg "Could not extract text from resume file")),
     mkApp (users store0) (resumes store0) (events store0 ++ [EvExtractText])) /\
  analyze_ats gen_fail ats_sources None (Some r) None None store0
  = (inr (HTTPException 400 (DMsg "Either job_description or job_url must be provided")),
     mkApp (users store0) (resumes store0) (events store0 ++ [])) /\
  analyze_ats gen_fail ats_sources None (Some r) (Some j) None store0
  = (inr (HTTPException 500 (DWrapped "Error analyzing ATS compatibility: " (ExternalError "groq: 503"))),
     mkApp (users store0) (resumes store0)
       (events store0 ++ [] ++ []
          ++ [EvGenerate (of_string "ats_analysis") r (ats_analysis_prompt r j)])).
Proof.
  intros r j.
  destruct (analyze_ats_errors gen_fail ats_sources None (Some []) (Some j) None store0) as [H1 _].
  destruct (analyze_ats_errors gen_fail ats_sources (Some [37]) None (Some j) None store0) as [_ [H2 _]].
  destruct (analyze_ats_errors gen_fail ats_sources None (Some r) None None store0)
    as [_ [_ H3]].
  destruct (analyze_ats_errors gen_fail ats_sources None (Some r) (Some j) None store0)
    as [_ [_ H4]].
  split; [reflexivity | split; [apply H1; reflexivity |]].
  split; [reflexivity | split; [apply (H2 [37]); reflexivity |]].
  split; [apply (proj1 (H3 r [] (or_introl (conj eq_refl (conj eq_refl eq_refl))))); reflexivity |].
  apply (proj2 (H4 r [] (or_introl (conj eq_refl (conj eq_refl eq_refl)))) j [] (ExternalError "groq: 503"));
    [right; split; [reflexivity | split; reflexivity] | reflexivity | discriminate].
Defined.

(** When a (non-empty) job URL is given, [analyze_ats] ignores the job
    description: the call behaves as if no description had been sent. *)
Theorem analyze_ats_url_wins (gen : Generator) (src : AtsSources) (resume_file : option (list Z))
  (resume_text job_description : option pystr) (url : pystr) (s : AppState) :
  str_truthy url = true ->
  analyze_ats gen src resume_file resume_text job_description (Some url) s
  = analyze_ats gen src resume_file resume_text None (Some url) s.
Proof.
  intros Hu. unfold analyze_ats, analyze_ats_compatibility.
  replace (opt_truthy (Some url)) with (Some url) by (simpl; rewrite Hu; reflexivity).
  reflexivity.
Qed.

Lemma analyze_ats_url_wins_witness :
  str_truthy (of_string "https://jobs.example/1") = true /\
  analyze_ats gen_ok ats_sources None (Some (of_string "CV")) (Some (of_string "ignored"))
    (Some (of_string "https://jobs.example/1")) store0
  = analyze_ats gen_ok ats_sources None (Some (of_string "CV")) None
      (Some (of_string "https://jobs.example/1")) store0.
Proof. split; [reflexivity | apply analyze_ats_url_wins; reflexivity]. Defined.

(** ** More of the enhance route *)

(** A verified caller whose account is not stored gets the route's own 404
    "User not found" (re-raised by [except HTTPException]), and nothing
    changes. *)
Theorem enhance_user_not_found (now : Z) (t : Token) (p : Payload) (gen : Generator)
  (fs : Files) (data : EnhanceRequest) (s : AppState) :
  verify_jwt_token now t = inl p ->
  find_user (p_user_id p) (users s) = None ->
  enhance_endpoint now t gen fs data s = (inr (HTTPException 404 (DMsg "User not found")), s).
Proof.
  intros Hv Hf. unfold enhance_endpoint, with_auth. rewrite Hv.
  unfold enhance_section, enhance_section_body, user_get. unfold_monad. rewrite Hf. reflexivity.
Qed.

Lemma enhance_user_not_found_witness :
  verify_jwt_token 1500 (token_for 3) = inl (tok_payload (token_for 3)) /\
  find_user 3 (users store0) = None /\
  enhance_endpoint 1500 (token_for 3) gen_ok no_files text_request store0
  = (inr (HTTPException 404 (DMsg "User not found")), store0).
Proof.
  split; [reflexivity | split; [reflexivity |]].
  apply (enhance_user_not_found 1500 (token_for 3) (tok_payload (token_for 3))); reflexivity.
Defined.

Lemma enhance_text_reserved (now : Z) (t : Token) (p : Payload) (gen : Generator)
  (fs : Files) (data : EnhanceRequest) (s : AppState) (u u1 : User) :
  verify_jwt_token now t = inl p ->
  find_user (p_user_id p) (users s) = Some u ->
  check_and_use_credits "enhance" u = (inl true, u1) ->
  is_blank (content data) = false ->
  enhance_endpoint now t gen fs data s
  = (inr (HTTPException 500 (DWrapped "Enhancement failed: "
                               (AttributeError "EnhanceRequest" "instructions"))),
     mkApp (replace_user (snd (refund_credits "enhance" u1)) (users s)) (resumes s) (events s)).
Proof.
  intros Hv Hf Hc Hb.
  pose proof (find_user_id _ _ _ Hf) as Hid.
  assert (Hid1 : id u1 = id u).
  { destruct (SubscriptionType_eqb (subscription_type u) PRO) eqn:E.
    - rewrite check_and_use_credits_pro in Hc by (destruct (subscription_type u); easy).
      injection Hc as <-. reflexivity.
    - rewrite check_and_use_credits_eq in Hc by (intros H; rewrite H in E; discriminate).
      destruct (cost_of "enhance" <=? credits_remaining u); [| discriminate].
      injection Hc as <-. reflexivity. }
  remember (refund_credits "enhance" u1) as R eqn:ER.
  unfold enhance_endpoint, with_auth. rewrite Hv.
  unfold enhance_section, enhance_section_body, catch, bind at 1.
  unfold user_get at 1. rewrite Hf.
  unfold bind at 1. rewrite (on_user_found _ _ _ _ Hf), Hc. cbn [fst snd].
  unfold is_blank in Hb. cbv [bind EnhanceRequest_getattr ret]. cbn -[on_user str_truthy pystr_eqb strip resolve_instructions].
  rewrite Hb, resolve_instructions_raises.
  assert (Hf1 : find_user (p_user_id p) (replace_user u1 (users s)) = Some u1).
  { rewrite <- Hid, <- Hid1. apply (find_replace_user _ u). rewrite Hid1, Hid. exact Hf. }
  unfold enhance_section_handler, catch, user_get. unfold bind. cbn [users]. rewrite Hf1.
  cbn beta iota.
  rewrite (on_user_found (p_user_id p) _ (mkApp (replace_user u1 (users s)) (resumes s) (events s)) u1 Hf1).
  rewrite <- ER. destruct R as [r u2]. symmetry in ER. cbn [fst snd users resumes events].
  rename ER into Er.
  assert (Hid2 : id u2 = id u1).
  { destruct (SubscriptionType_eqb (subscription_type u1) PRO) eqn:E.
    - rewrite refund_credits_pro in Er by (destruct (subscription_type u1); easy).
      injection Er as _ <-. reflexivity.
    - rewrite refund_credits_eq in Er by (intros H; rewrite H in E; discriminate).
      injection Er as _ <-. reflexivity. }
  rewrite replace_replace_user by (symmetry; exact Hid2).
  destruct r as [b | e]; reflexivity.
Qed.

Lemma find_user_replace_other (uid : Z) (u' : User) (l : list User) :
  uid <> id u' -> find_user uid (replace_user u' l) = find_user uid l.
Proof.
  intros Hne. induction l as [| a l IH]; simpl; [reflexivity |].
  destruct (id a =? id u') eqn:E; simpl.
  - apply Z.eqb_eq in E. destruct (id u' =? uid) eqn:E1; [apply Z.eqb_eq in E1; congruence |].
    destruct (id a =? uid) eqn:E2; [apply Z.eqb_eq in E2; congruence | reflexivity].
  - destruct (id a =? uid); [reflexivity | exact IH].
Qed.

(** C3: every enhance request that gets past the reservation with real
    content stops at the delegation step, for every Content Generator
    (one that always raises included): [data.instructions] raises
    [AttributeError] ([EnhanceRequest] declares no such field), so the
    generator is never called (the log of external calls is unchanged). The
    route's [except Exception] clause catches that exception and runs
    [refund_credits] on the reserved account before the error is returned,
    and the caller gets the 500 "Enhancement failed: ..." carrying that
    same exception. *)
Theorem enhance_delegation_failure_refunded (now : Z) (t : Token) (p : Payload)
  (gen : Generator) (fs : Files) (data : EnhanceRequest) (s : AppState) (u u1 : User) :
  verify_jwt_token now t = inl p ->
  find_user (p_user_id p) (users s) = Some u ->
  check_and_use_credits "enhance" u = (inl true, u1) ->
  is_blank (content data) = false ->
  enhance_endpoint now t gen fs data s
  = (inr (HTTPException 500 (DWrapped "Enhancement failed: "
                               (AttributeError "EnhanceRequest" "instructions"))),
     mkApp (replace_user (snd (refund_credits "enhance" u1)) (users s)) (resumes s) (events s)).
Proof.
  intros Hv Hf Hc Hb. exact (enhance_text_reserved now t p gen fs data s u u1 Hv Hf Hc Hb).
Qed.

Lemma enhance_delegation_failure_refunded_witness :
  verify_jwt_token 1500 (token_for 1) = inl (tok_payload (token_for 1)) /\
  find_user 1 (users store0) = Some trial_user /\
  check_and_use_credits "enhance" trial_user = (inl true, mkUser 1 TRIAL 9 1 [] 0) /\
  is_blank (content text_request) = false /\
  enhance_endpoint 1500 (token_for 1) gen_fail no_files text_request store0
  = (inr (HTTPException 500 (DWrapped "Enhancement failed: "
                               (AttributeError "EnhanceRequest" "instructions"))),
     mkApp (replace_user (snd (refund_credits "enhance" (mkUser 1 TRIAL 9 1 [] 0))) (users store0))
           (resumes store0) (events store0)).
Proof.
  split; [reflexivity | split; [reflexivity | split; [reflexivity | split; [reflexivity |]]]].
  apply (enhance_delegation_failure_refunded 1500 (token_for 1) (tok_payload (token_for 1))
           gen_fail no_files text_request store0 trial_user); reflexivity.
Defined.

(** An enhance request with real content by an account whose reservation
    succeeds (a Pro account, or one with a credit left) ends in the 500
    "Enhancement failed: ..." error. Resumes, the log of external calls and
    every other account are untouched. The account keeps its tier; a
    non-Pro account ([credits_used >= 0]) ends with the same
    [credits_remaining] and [credits_used] as before, and a Pro account with
    [credits_used] one higher. ([updated_at], which [use_credit] and
    [add_credits] set, is not modelled.) *)
Theorem enhance_text_refunded (now : Z) (t : Token) (p : Payload) (gen : Generator)
  (fs : Files) (data : EnhanceRequest) (s : AppState) (u : User) :
  verify_jwt_token now t = inl p ->
  find_user (p_user_id p) (users s) = Some u ->
  is_blank (content data) = false ->
  (subscription_type u = PRO \/ 1 <= credits_remaining u) -> 0 <= credits_used u ->
  let r := enhance_endpoint now t gen fs data s in
  fst r = inr (HTTPException 500 (DWrapped "Enhancement failed: "
                                    (AttributeError "EnhanceRequest" "instructions"))) /\
  resumes (snd r) = resumes s /\ events (snd r) = events s /\
  (forall uid, uid <> p_user_id p -> find_user uid (users (snd r)) = find_user uid (users s)) /\
  exists u', find_user (p_user_id p) (users (snd r)) = Some u' /\
    subscription_type u' = subscription_type u /\
    credits_remaining u' = credits_remaining u /\
    credits_used u' = credits_used u + (if SubscriptionType_eqb (subscription_type u) PRO
                                        then 1 else 0).
Proof.
  intros Hv Hf Hb Hres Hu r.
  pose proof (find_user_id _ _ _ Hf) as Hid.
  assert (H : exists u2, r = (inr (HTTPException 500 (DWrapped "Enhancement failed: "
                               (AttributeError "EnhanceRequest" "instructions"))),
                              mkApp (replace_user u2 (users s)) (resumes s) (events s)) /\
              id u2 = id u /\ subscription_type u2 = subscription_type u /\
              credits_remaining u2 = credits_remaining u /\
              credits_used u2 = credits_used u + (if SubscriptionType_eqb (subscription_type u) PRO
                                                  then 1 else 0)).
  { destruct (SubscriptionType_eqb (subscription_type u) PRO) eqn:Ep.
    - assert (Hp : subscription_type u = PRO) by (destruct (subscription_type u); easy).
      exists (set_credits_used u (credits_used u + 1)). split.
      + unfold r. rewrite (enhance_text_reserved now t p gen fs data s u _ Hv Hf
                             (check_and_use_credits_pro "enhance" u Hp) Hb).
        rewrite refund_credits_pro by (unfold set_credits_used; simpl; exact Hp). reflexivity.
      + simpl. repeat split; reflexivity.
    - assert (Hnp : subscription_type u <> PRO) by (intros H; rewrite H in Ep; discriminate).
      destruct Hres as [Hp | Hr]; [contradiction |].
      assert (Hc := check_and_use_credits_eq "enhance" u Hnp).
      change (cost_of "enhance") with 1 in Hc.
      apply Z.leb_le in Hr. rewrite Hr in Hc.
      eexists. split.
      + unfold r. rewrite (enhance_text_reserved now t p gen fs data s u _ Hv Hf Hc Hb).
        rewrite refund_credits_eq by exact Hnp. reflexivity.
      + change (cost_of "enhance") with 1. simpl. repeat split; lia. }
  destruct H as [u2 [Er [Hid2 [Ht2 [Hr2 Hu2]]]]].
  rewrite Er. cbn [fst snd resumes events users].
  split; [reflexivity | split; [reflexivity | split; [reflexivity | split]]].
  - intros uid Hne. apply find_user_replace_other. rewrite Hid2, Hid. exact Hne.
  - exists u2. split; [| auto].
    rewrite <- Hid, <- Hid2. apply (find_replace_user _ u). rewrite Hid2, Hid. exact Hf.
Qed.

Lemma enhance_text_refunded_witness :
  verify_jwt_token 1500 (token_for 1) = inl (tok_payload (token_for 1)) /\
  find_user 1 (users store0) = Some trial_user /\
  is_blank (content text_request) = false /\
  (subscription_type trial_user = PRO \/ 1 <= credits_remaining trial_user) /\
  0 <= credits_used trial_user /\
  exists u', find_user 1 (users (snd (enhance_endpoint 1500 (token_for 1) gen_ok no_files
                                        text_request store0))) = Some u' /\
    credits_remaining u' = 10 /\ credits_used u' = 0.
Proof.
  split; [reflexivity | split; [reflexivity | split; [reflexivity |]]].
  split; [right; simpl; lia | split; [simpl; lia |]].
  destruct (enhance_text_refunded 1500 (token_for 1) (tok_payload (token_for 1)) gen_ok
              no_files text_request store0 trial_user eq_refl eq_refl eq_refl
              ltac:(right; simpl; lia) ltac:(simpl; lia))
    as [_ [_ [_ [_ [u' [Hf [_ [Hr Hu]]]]]]]].
  exists u'. split; [exact Hf |]. rewrite Hr, Hu. split; reflexivity.
Defined.
